(** * quivr_core.config: supplier registry, endpoint and reranker configuration

    A shallow embedding of [backend/core/quivr_core/config.py].

    - Python values that can sit in an attribute are the type [PyVal];
      [None] is [PNone].
    - The process environment read by [os.getenv] is a finite map from
      variable names to values.
    - [_model_defaults] is an insertion-ordered dict of insertion-ordered
      dicts; its iteration order matters, so it is an association list.
    - A constructor either returns the object or raises, so it returns a
      [Result].  A method mutates [self] and may then raise: it maps the
      object to the object it leaves behind together with its outcome.
    - Arguments have the types of their annotations.  The fields of an
      [LLMEndpointConfig] hold any value, since [set_from_sqlmodel]
      assigns them by name without validation.
    - [QuivrBaseConfig] (base_config.py) is outside this file; what
      [set_from_sqlmodel] needs of it is taken as a parameter. *)

From Stdlib Require Import ZArith List Ascii String Floats.
From stdpp Require Import base option list strings gmap.
Import ListNotations.
Local Open Scope string_scope.
Local Open Scope Z_scope.

(** ** Enumerations *)

Inductive DefaultRerankers : Type :=
| COHERE
| JINA.

Inductive DefaultModelSuppliers : Type :=
| OPENAI
| AZURE
| ANTHROPIC
| META
| MISTRAL
| GROQ.

(** The members are strings as well ([class ...(str, Enum)]): the string
    of a member is its value. *)
Definition reranker_value (r : DefaultRerankers) : string :=
  match r with
  | COHERE => "cohere"
  | JINA => "jina"
  end.

Definition supplier_value (s : DefaultModelSuppliers) : string :=
  match s with
  | OPENAI => "openai"
  | AZURE => "azure"
  | ANTHROPIC => "anthropic"
  | META => "meta"
  | MISTRAL => "mistral"
  | GROQ => "groq"
  end.

(** The members in definition order. *)
Definition all_suppliers : list DefaultModelSuppliers :=
  [OPENAI; AZURE; ANTHROPIC; META; MISTRAL; GROQ].

#[global] Instance DefaultModelSuppliers_eq_dec : EqDecision DefaultModelSuppliers.
Proof. solve_decision. Defined.

#[global] Instance DefaultRerankers_eq_dec : EqDecision DefaultRerankers.
Proof. solve_decision. Defined.

(** [DefaultRerankers.default_model] *)
Definition default_model (self : DefaultRerankers) : string :=
  match self with
  | COHERE => "rerank-multilingual-v3.0"
  | JINA => "jina-reranker-v2-base-multilingual"
  end.

(** ** Strings *)

(** [str.upper], on ASCII letters (the values of the two enumerations
    contain nothing else). *)
Definition upper_ascii (c : ascii) : ascii :=
  let n := nat_of_ascii c in
  if ((97 <=? n) && (n <=? 122))%nat then ascii_of_nat (n - 32) else c.

Fixpoint upper (s : string) : string :=
  match s with
  | EmptyString => EmptyString
  | String c rest => String (upper_ascii c) (upper rest)
  end.

(** [s.startswith(key)] *)
Definition startswith (s key : string) : bool := String.prefix key s.

(** ** Python values and exceptions *)

(** What an attribute of a config object or of a row object may hold.
    [PObject] is a reference to any other object (a [CustomPromptsModel]
    for instance). *)
Inductive PyVal : Type :=
| PNone
| PBool (b : bool)
| PInt (z : Z)
| PFloat (f : float)
| PStr (s : string)
| PSupplier (s : DefaultModelSuppliers)
| PObject (ref : positive).

(** Truth value of a Python value, as [not v] and [if v:] test it.  A
    member of a [str] enumeration is tested as the string it is. *)
Definition truthy (v : PyVal) : bool :=
  match v with
  | PNone => false
  | PBool b => b
  | PInt z => negb (z =? 0)
  | PFloat f => negb (PrimFloat.eqb f 0%float)
  | PStr s => negb (String.eqb s "")
  | PSupplier s => negb (String.eqb (supplier_value s) "")
  | PObject _ => true
  end.

(** The string a value is, when it is an instance of [str]. *)
Definition as_str (v : PyVal) : option string :=
  match v with
  | PStr s => Some s
  | PSupplier s => Some (supplier_value s)
  | _ => None
  end.

(** The member of [DefaultModelSuppliers] a value equals as a dict key:
    the member itself, or a plain string equal to a member's value (a
    [str] enumeration member hashes and compares as its value). *)
Definition as_supplier (v : PyVal) : option DefaultModelSuppliers :=
  match v with
  | PSupplier s => Some s
  | PStr x => find (fun s => String.eqb (supplier_value s) x) all_suppliers
  | _ => None
  end.

Definition of_int (o : option Z) : PyVal := from_option PInt PNone o.
Definition of_str (o : option string) : PyVal := from_option PStr PNone o.

(** The texts of the exceptions the module raises, by what they report
    and not by their wording. *)
Inductive Msg : Type :=
| ApiKeyNotSet (env_variable_name : PyVal)
| NoSupplierForModel (model : string)
| InvalidMapping (model_field llm_field : string)
| NoSetter (name : string)
| StrExpected
| NoStartswith.

Inductive PyExn : Type :=
| ValueError (m : Msg)
| AttributeError (m : Msg)
| TypeError (m : Msg).

Inductive Result (A : Type) : Type :=
| Ok (a : A)
| Raise (e : PyExn).
Arguments Ok {A} a.
Arguments Raise {A} e.

(** ** Methods: mutate [self], then return or raise *)

(** A method body run on the object [self] leaves an object behind and
    either returns a value or raises.  What was assigned before a [raise]
    stays assigned. *)
Definition Method (S A : Type) : Type := S -> S * Result A.

#[global] Instance Method_ret {S} : MRet (Method S) :=
  fun A a self => (self, Ok a).

#[global] Instance Method_bind {S} : MBind (Method S) :=
  fun A B k m self =>
    match m self with
    | (self', Ok a) => k a self'
    | (self', Raise e) => (self', Raise e)
    end.

Definition raise {S A} (e : PyExn) : Method S A := fun self => (self, Raise e).
Definition get_self {S} : Method S S := fun self => (self, Ok self).
Definition modify {S} (f : S -> S) : Method S unit := fun self => (f self, Ok tt).
Definition lift {S A} (r : Result A) : Method S A := fun self => (self, r).

(** [Class(data...)]: [__init__] runs its body on the freshly populated
    object; the caller gets the object only if the body does not raise. *)
Definition construct {S} (populated : S) (body : Method S unit) : Result S :=
  match body populated with
  | (self, Ok _) => Ok self
  | (_, Raise e) => Raise e
  end.

(** ** The process environment *)

(** [os.getenv(name)]: the value, or [None]; a name that is not a string
    is a [TypeError]. *)
Definition getenv (environ : gmap string string) (name : PyVal) : Result PyVal :=
  match as_str name with
  | Some n => Ok (of_str (environ !! n))
  | None => Raise (TypeError StrExpected)
  end.

(** ** Insertion-ordered dicts *)

(** [d.get(key)] on a dict kept as the list of its items. *)
Fixpoint dict_get {K V : Type} `{EqDecision K} (key : K) (d : list (K * V)) : option V :=
  match d with
  | [] => None
  | (k, v) :: rest => if decide (k = key) then Some v else dict_get key rest
  end.

(** ** [LLMConfig] *)

Module LLMConfig.

Record t : Type := mk {
  context : option Z;
  tokenizer_hub : option string
}.

End LLMConfig.

(** ** [LLMModelConfig]: the registry *)

Module LLMModelConfig.

Definition _model_defaults
  : list (DefaultModelSuppliers * list (string * LLMConfig.t)) :=
  [ (OPENAI,
      [ ("gpt-4o", LLMConfig.mk (Some 128000) (Some "Xenova/gpt-4o"));
        ("gpt-4o-mini", LLMConfig.mk (Some 128000) (Some "Xenova/gpt-4o"));
        ("gpt-4-turbo", LLMConfig.mk (Some 128000) (Some "Xenova/gpt-4"));
        ("gpt-4", LLMConfig.mk (Some 8192) (Some "Xenova/gpt-4"));
        ("gpt-3.5-turbo", LLMConfig.mk (Some 16385) (Some "Xenova/gpt-3.5-turbo"));
        ("text-embedding-3-large",
           LLMConfig.mk (Some 8191) (Some "Xenova/text-embedding-ada-002"));
        ("text-embedding-3-small",
           LLMConfig.mk (Some 8191) (Some "Xenova/text-embedding-ada-002"));
        ("text-embedding-ada-002",
           LLMConfig.mk (Some 8191) (Some "Xenova/text-embedding-ada-002")) ]);
    (ANTHROPIC,
      [ ("claude-3-5-sonnet", LLMConfig.mk (Some 200000) (Some "Xenova/claude-tokenizer"));
        ("claude-3-opus", LLMConfig.mk (Some 200000) (Some "Xenova/claude-tokenizer"));
        ("claude-3-sonnet", LLMConfig.mk (Some 200000) (Some "Xenova/claude-tokenizer"));
        ("claude-3-haiku", LLMConfig.mk (Some 200000) (Some "Xenova/claude-tokenizer"));
        ("claude-2-1", LLMConfig.mk (Some 200000) (Some "Xenova/claude-tokenizer"));
        ("claude-2-0", LLMConfig.mk (Some 100000) (Some "Xenova/claude-tokenizer"));
        ("claude-instant-1-2",
           LLMConfig.mk (Some 100000) (Some "Xenova/claude-tokenizer")) ]);
    (META,
      [ ("llama-3.1", LLMConfig.mk (Some 128000) (Some "Xenova/Meta-Llama-3.1-Tokenizer"));
        ("llama-3", LLMConfig.mk (Some 8192) (Some "Xenova/llama3-tokenizer-new"));
        ("llama-2", LLMConfig.mk (Some 4096) (Some "Xenova/llama2-tokenizer"));
        ("code-llama", LLMConfig.mk (Some 16384) (Some "Xenova/llama-code-tokenizer")) ]);
    (GROQ,
      [ ("llama-3.1", LLMConfig.mk (Some 128000) (Some "Xenova/Meta-Llama-3.1-Tokenizer"));
        ("llama-3", LLMConfig.mk (Some 8192) (Some "Xenova/llama3-tokenizer-new"));
        ("llama-2", LLMConfig.mk (Some 4096) (Some "Xenova/llama2-tokenizer"));
        ("code-llama", LLMConfig.mk (Some 16384) (Some "Xenova/llama-code-tokenizer")) ]);
    (MISTRAL,
      [ ("mistral-large", LLMConfig.mk (Some 128000) (Some "Xenova/mistral-tokenizer-v3"));
        ("mistral-small", LLMConfig.mk (Some 128000) (Some "Xenova/mistral-tokenizer-v3"));
        ("mistral-nemo",
           LLMConfig.mk (Some 128000) (Some "Xenova/Mistral-Nemo-Instruct-Tokenizer"));
        ("codestral", LLMConfig.mk (Some 32000) (Some "Xenova/mistral-tokenizer-v3")) ])
  ].

(** The inner loop of [get_supplier_by_model_name]: the keys of one
    supplier, in order; the first key the model name starts with returns
    the supplier. *)
Fixpoint scan_models (supplier : DefaultModelSuppliers) (model : string)
    (models : list (string * LLMConfig.t)) : option DefaultModelSuppliers :=
  match models with
  | [] => None
  | (base_model_name, _) :: rest =>
      if startswith model base_model_name then Some supplier
      else scan_models supplier model rest
  end.

(** The outer loop, over the suppliers in order. *)
Fixpoint scan_suppliers (model : string)
    (items : list (DefaultModelSuppliers * list (string * LLMConfig.t)))
  : option DefaultModelSuppliers :=
  match items with
  | [] => None
  | (supplier, models) :: rest =>
      match scan_models supplier model models with
      | Some found => Some found
      | None => scan_suppliers model rest
      end
  end.

Definition get_supplier_by_model_name (model : string) : option DefaultModelSuppliers :=
  scan_suppliers model _model_defaults.

(** The loop of [get_llm_model_config] over the items of one supplier. *)
Fixpoint first_config (model_name : string) (items : list (string * LLMConfig.t))
  : option LLMConfig.t :=
  match items with
  | [] => None
  | (key, config) :: rest =>
      if startswith model_name key then Some config
      else first_config model_name rest
  end.

Definition get_llm_model_config (supplier : DefaultModelSuppliers) (model_name : string)
  : option LLMConfig.t :=
  match dict_get supplier _model_defaults with
  | None => None
  | Some [] => None
  | Some supplier_defaults => first_config model_name supplier_defaults
  end.

(** The same call on what two attributes of an object hold, which need
    not be of the annotated types: a supplier that is no key of the
    registry finds nothing; with a supplier that is one, a model name
    that is not a string has no [startswith]. *)
Definition get_llm_model_config_of (supplier model_name : PyVal)
  : Result (option LLMConfig.t) :=
  match as_supplier supplier with
  | None => Ok None
  | Some s =>
      match dict_get s _model_defaults with
      | None => Ok None
      | Some [] => Ok None
      | Some supplier_defaults =>
          match as_str model_name with
          | Some m => Ok (first_config m supplier_defaults)
          | None => Raise (AttributeError NoStartswith)
          end
      end
  end.

End LLMModelConfig.

(** ** [LLMEndpointConfig] *)

Module LLMEndpointConfig.

(** The declared fields.  Assignment is not validated, so each holds any
    value. *)
Record t : Type := mk {
  supplier : PyVal;
  model : PyVal;
  context_length : PyVal;
  tokenizer_hub : PyVal;
  llm_base_url : PyVal;
  env_variable_name : PyVal;
  llm_api_key : PyVal;
  max_input_tokens : PyVal;
  max_output_tokens : PyVal;
  temperature : PyVal;
  streaming : PyVal;
  prompt : PyVal
}.

(** The fields by name, in declaration order. *)
Definition fields (self : t) : list (string * PyVal) :=
  [ ("supplier", supplier self);
    ("model", model self);
    ("context_length", context_length self);
    ("tokenizer_hub", tokenizer_hub self);
    ("llm_base_url", llm_base_url self);
    ("env_variable_name", env_variable_name self);
    ("llm_api_key", llm_api_key self);
    ("max_input_tokens", max_input_tokens self);
    ("max_output_tokens", max_output_tokens self);
    ("temperature", temperature self);
    ("streaming", streaming self);
    ("prompt", prompt self) ].

Definition model_fields : list string :=
  [ "supplier"; "model"; "context_length"; "tokenizer_hub"; "llm_base_url";
    "env_variable_name"; "llm_api_key"; "max_input_tokens"; "max_output_tokens";
    "temperature"; "streaming"; "prompt" ].

Definition is_field (name : string) : bool := existsb (String.eqb name) model_fields.

(** What the class body itself adds to the namespace of the class next to
    the fields. *)
Definition class_members : list string :=
  [ "_FALLBACK_TOKENIZER"; "fallback_tokenizer"; "__init__"; "set_api_key";
    "set_llm_model_config"; "set_llm_model"; "set_from_sqlmodel" ].

(** The value of a field, by name. *)
Definition getfield (name : string) (self : t) : option PyVal :=
  dict_get name (fields self).

(** [self.<name> = v] for a declared field. *)
Definition store (name : string) (v : PyVal) (self : t) : t :=
  let pick field old := if String.eqb name field then v else old in
  {| supplier := pick "supplier" (supplier self);
     model := pick "model" (model self);
     context_length := pick "context_length" (context_length self);
     tokenizer_hub := pick "tokenizer_hub" (tokenizer_hub self);
     llm_base_url := pick "llm_base_url" (llm_base_url self);
     env_variable_name := pick "env_variable_name" (env_variable_name self);
     llm_api_key := pick "llm_api_key" (llm_api_key self);
     max_input_tokens := pick "max_input_tokens" (max_input_tokens self);
     max_output_tokens := pick "max_output_tokens" (max_output_tokens self);
     temperature := pick "temperature" (temperature self);
     streaming := pick "streaming" (streaming self);
     prompt := pick "prompt" (prompt self) |}.

(** The keyword arguments of the constructor, as the field types admit
    them; [None] is an argument left out (for a field that may be [None],
    also one passed as [None]). *)
Record kwargs : Type := mk_kwargs {
  kw_supplier : option DefaultModelSuppliers;
  kw_model : option string;
  kw_context_length : option Z;
  kw_tokenizer_hub : option string;
  kw_llm_base_url : option string;
  kw_env_variable_name : option string;
  kw_llm_api_key : option string;
  kw_max_input_tokens : option Z;
  kw_max_output_tokens : option Z;
  kw_temperature : option float;
  kw_streaming : option bool;
  kw_prompt : option positive
}.

Definition no_kwargs : kwargs :=
  mk_kwargs None None None None None None None None None None None None.

(** The defaults of the class body.  [default_env_variable_name] is the
    f-string [f"{supplier.upper()}_API_KEY"], evaluated once, when the
    class body runs, on the class-level name [supplier] bound two lines
    above it. *)
Definition default_supplier : DefaultModelSuppliers := OPENAI.
Definition default_model_name : string := "gpt-3.5-turbo-0125".
Definition default_env_variable_name : string :=
  upper (supplier_value default_supplier) +:+ "_API_KEY".

Definition _FALLBACK_TOKENIZER : string := "cl100k_base".
Definition fallback_tokenizer (self : t) : string := _FALLBACK_TOKENIZER.

(** [super().__init__(data...)]: every field from its argument or its
    default. *)
Definition populate (data : kwargs) : t :=
  {| supplier := PSupplier (default default_supplier (kw_supplier data));
     model := PStr (default default_model_name (kw_model data));
     context_length := of_int (kw_context_length data);
     tokenizer_hub := of_str (kw_tokenizer_hub data);
     llm_base_url := of_str (kw_llm_base_url data);
     env_variable_name :=
       PStr (default default_env_variable_name (kw_env_variable_name data));
     llm_api_key := of_str (kw_llm_api_key data);
     max_input_tokens := PInt (default 2000 (kw_max_input_tokens data));
     max_output_tokens := PInt (default 2000 (kw_max_output_tokens data));
     temperature := PFloat (default 0x1.6666666666666p-1%float (kw_temperature data));
     streaming := PBool (default true (kw_streaming data));
     prompt := from_option PObject PNone (kw_prompt data) |}.

Definition set_api_key (environ : gmap string string) (force_reset : bool)
  : Method t unit :=
  self ← get_self;
  (if negb (truthy (llm_api_key self)) || force_reset then
     key ← lift (getenv environ (env_variable_name self));
     modify (store "llm_api_key" key)
   else mret tt);;
  self ← get_self;
  if negb (truthy (llm_api_key self)) then
    raise (ValueError (ApiKeyNotSet (env_variable_name self)))
  else mret tt.

Definition set_llm_model_config : Method t unit :=
  self ← get_self;
  llm_model_config ←
    lift (LLMModelConfig.get_llm_model_config_of (supplier self) (model self));
  match llm_model_config with
  | Some config =>
      modify (store "context_length" (of_int (LLMConfig.context config)));;
      modify (store "tokenizer_hub" (of_str (LLMConfig.tokenizer_hub config)))
  | None => mret tt
  end.

Definition init (environ : gmap string string) (data : kwargs) : Result t :=
  construct (populate data) (set_llm_model_config;; set_api_key environ false).

Definition set_llm_model (environ : gmap string string) (model : string)
  : Method t unit :=
  match LLMModelConfig.get_supplier_by_model_name model with
  | None => raise (ValueError (NoSupplierForModel model))
  | Some supplier =>
      modify (store "supplier" (PSupplier supplier));;
      modify (store "model" (PStr model));;
      set_llm_model_config;;
      set_api_key environ true
  end.

(** *** Attribute access by name *)

Section SetFromSqlmodel.

(** [QuivrBaseConfig] and the classes it extends are not part of this
    file.  They decide which further attribute names an instance has, and
    what assigning to a name that is neither a declared field nor the
    property of this class does. *)
Variable base_hasattr : string -> bool.
Variable base_setattr : string -> PyVal -> Method t unit.

Definition hasattr (self : t) (name : string) : bool :=
  is_field name || existsb (String.eqb name) class_members || base_hasattr name.

(** [setattr(self, name, v)].  [fallback_tokenizer] is a property
    without a setter, so assigning to it raises. *)
Definition setattr (name : string) (v : PyVal) : Method t unit :=
  if is_field name then modify (store name v)
  else if String.eqb name "fallback_tokenizer" then
    raise (AttributeError (NoSetter name))
  else base_setattr name v.

(** [sqlmodel] is any object, given by its attributes: [hasattr] and
    [getattr] on it are the lookup of the name.  [mapping] is the dict in
    the order of its items. *)
Fixpoint set_from_sqlmodel (sqlmodel : gmap string PyVal)
    (mapping : list (string * string)) : Method t unit :=
  match mapping with
  | [] => mret tt
  | (model_field, llm_field) :: rest =>
      self ← get_self;
      match sqlmodel !! model_field with
      | Some v =>
          if hasattr self llm_field then
            setattr llm_field v;;
            set_from_sqlmodel sqlmodel rest
          else raise (AttributeError (InvalidMapping model_field llm_field))
      | None => raise (AttributeError (InvalidMapping model_field llm_field))
      end
  end.

End SetFromSqlmodel.

End LLMEndpointConfig.

(** ** [RerankerConfig] *)

Module RerankerConfig.

(** Nothing assigns these fields by name, so they keep their declared
    types. *)
Record t : Type := mk {
  supplier : option DefaultRerankers;
  model : option string;
  top_n : Z;
  api_key : option string
}.

Record kwargs : Type := mk_kwargs {
  kw_supplier : option DefaultRerankers;
  kw_model : option string;
  kw_top_n : option Z;
  kw_api_key : option string
}.

(** [super().__init__(data...)] *)
Definition populate (data : kwargs) : t :=
  {| supplier := kw_supplier data;
     model := kw_model data;
     top_n := default 5 (kw_top_n data);
     api_key := kw_api_key data |}.

Definition with_model (m : option string) (self : t) : t :=
  {| supplier := supplier self; model := m; top_n := top_n self;
     api_key := api_key self |}.

Definition with_api_key (k : option string) (self : t) : t :=
  {| supplier := supplier self; model := model self; top_n := top_n self;
     api_key := k |}.

(** [if self.supplier:] a member is tested as the string it is. *)
Definition supplier_set (self : t) : option DefaultRerankers :=
  match supplier self with
  | Some s => if String.eqb (reranker_value s) "" then None else Some s
  | None => None
  end.

Definition validate_model (environ : gmap string string) : Method t unit :=
  self ← get_self;
  match model self, supplier self with
  | None, Some s => modify (with_model (Some (default_model s)))
  | _, _ => mret tt
  end;;
  self ← get_self;
  match supplier_set self with
  | Some s =>
      let api_key_var := upper (reranker_value s) +:+ "_API_KEY" in
      modify (with_api_key (environ !! api_key_var));;
      self ← get_self;
      match api_key self with
      | None => raise (ValueError (ApiKeyNotSet (PStr api_key_var)))
      | Some _ => mret tt
      end
  | None => mret tt
  end.

Definition init (environ : gmap string string) (data : kwargs) : Result t :=
  construct (populate data) (validate_model environ).

End RerankerConfig.

(** ** [RetrievalConfig] *)

Module RetrievalConfig.

(** The defaults of [reranker_config] and [llm_config] are the
    expressions [RerankerConfig()] and [LLMEndpointConfig()] in the class
    body: they are evaluated, in this order, when the class statement
    runs, and an exception of either one leaves the class undefined. *)
Definition class_defaults (environ : gmap string string)
  : Result (RerankerConfig.t * LLMEndpointConfig.t) :=
  match RerankerConfig.init environ (RerankerConfig.mk_kwargs None None None None) with
  | Ok reranker_config =>
      match LLMEndpointConfig.init environ LLMEndpointConfig.no_kwargs with
      | Ok llm_config => Ok (reranker_config, llm_config)
      | Raise e => Raise e
      end
  | Raise e => Raise e
  end.

End RetrievalConfig.

(** ** The registry as the specification words it *)

(** All registered [(supplier, prefix, config)] entries, in registration
    order: suppliers in order, and the keys of each in order. *)
Definition registered : list (DefaultModelSuppliers * string * LLMConfig.t) :=
  flat_map
    (fun '(supplier, models) => map (fun '(key, config) => (supplier, key, config)) models)
    LLMModelConfig._model_defaults.

(** Reverse lookup as worded: scan every registered key with the prefix
    rule and answer the supplier of the first match. *)
Definition supplier_for (model : string) : option DefaultModelSuppliers :=
  (fun e => e.1.1) <$> find (fun e => startswith model e.1.2) registered.

(** ** [set_from_sqlmodel] as the specification words it *)

(** Each target field set to the corresponding source value, entry after
    entry in the order of the mapping. *)
Definition assign_all (sqlmodel : gmap string PyVal) (mapping : list (string * string))
    (self : LLMEndpointConfig.t) : LLMEndpointConfig.t :=
  fold_left
    (fun acc e =>
       match sqlmodel !! e.1 with
       | Some v => LLMEndpointConfig.store e.2 v acc
       | None => acc
       end)
    mapping self.

(** * Properties *)

(** ** Running method bodies *)

(** Unfolds the sequencing of a method body down to its steps. *)
Ltac run_method :=
  cbv beta iota zeta delta
    [mbind mret Method_bind Method_ret get_self lift modify raise construct].

Lemma run_bind {S A B} (m : Method S A) (k : A -> Method S B) (self : S) :
  (m ≫= k) self =
  match m self with
  | (self', Ok a) => k a self'
  | (self', Raise e) => (self', Raise e)
  end.
Proof. reflexivity. Qed.

(** ** Sanity checks on concrete inputs *)

Example default_env_variable_name_value :
  LLMEndpointConfig.default_env_variable_name = "OPENAI_API_KEY".
Proof. reflexivity. Qed.

Example lookup_gpt4o_mini :
  LLMModelConfig.get_llm_model_config OPENAI "gpt-4o-mini-2024-07-18"
  = Some (LLMConfig.mk (Some 128000) (Some "Xenova/gpt-4o")).
Proof. reflexivity. Qed.

Example lookup_azure : LLMModelConfig.get_llm_model_config AZURE "gpt-4o" = None.
Proof. reflexivity. Qed.

Example reverse_lookup_llama :
  LLMModelConfig.get_supplier_by_model_name "llama-3.1-70b" = Some META.
Proof. reflexivity. Qed.

Example init_default_with_key :
  LLMEndpointConfig.context_length
    <$> (match LLMEndpointConfig.init {[ "OPENAI_API_KEY" := "x" ]}
                 (LLMEndpointConfig.mk_kwargs (Some OPENAI) (Some "gpt-4o") None None None
                    None None None None None None None) with
         | Ok c => Some c | Raise _ => None end)
  = Some (PInt 128000).
Proof. vm_compute. reflexivity. Qed.

(** ** The registry *)

Lemma first_config_Some model_name items config :
  LLMModelConfig.first_config model_name items = Some config ->
  exists before key after,
    items = (before ++ (key, config) :: after)%list /\
    startswith model_name key = true /\
    Forall (fun e => startswith model_name e.1 = false) before.
Proof.
  induction items as [|[k c] rest IH]; simpl; [discriminate|].
  destruct (startswith model_name k) eqn:Hk.
  - intros [= <-]. exists [], k, rest. auto.
  - intros H. destruct (IH H) as (before & key & after & -> & Hkey & Hbefore).
    exists ((k, c) :: before), key, after. repeat split; auto.
Qed.

Lemma first_config_None model_name items :
  LLMModelConfig.first_config model_name items = None <->
  Forall (fun e => startswith model_name e.1 = false) items.
Proof.
  induction items as [|[k c] rest IH]; simpl.
  - split; auto.
  - destruct (startswith model_name k) eqn:Hk.
    + split; [discriminate|]. intros H. inversion H; subst. simpl in *. congruence.
    + rewrite IH. split; [auto|]. intros H. by inversion H.
Qed.

Lemma scan_models_find supplier model models :
  LLMModelConfig.scan_models supplier model models =
  (fun e => e.1.1) <$>
    find (fun e => startswith model e.1.2)
      (map (fun '(key, config) => (supplier, key, config)) models).
Proof.
  induction models as [|[k c] rest IH]; simpl; [done|].
  destruct (startswith model k); [done|]. apply IH.
Qed.

Lemma find_app_first {A} (f : A -> bool) (l1 l2 : list A) :
  find f (l1 ++ l2)%list = match find f l1 with Some x => Some x | None => find f l2 end.
Proof. induction l1 as [|x l1 IH]; simpl; [done|]. by destruct (f x). Qed.

Lemma scan_suppliers_find model items :
  LLMModelConfig.scan_suppliers model items =
  (fun e => e.1.1) <$>
    find (fun e => startswith model e.1.2)
      (flat_map (fun '(supplier, models) =>
                   map (fun '(key, config) => (supplier, key, config)) models) items).
Proof.
  induction items as [|[s models] rest IH]; simpl; [done|].
  rewrite find_app_first, scan_models_find.
  destruct (find _ (map _ models)); [done|]. apply IH.
Qed.

Lemma get_supplier_by_model_name_spec model :
  LLMModelConfig.get_supplier_by_model_name model = supplier_for model.
Proof. apply scan_suppliers_find. Qed.

(** C3.  For every registered (supplier, prefix) pair, looking up the
    prefix followed by ["-ft"] under that supplier returns the config
    registered for the pair; it is the config of the first key of that
    supplier, in registration order, that the looked-up name starts
    with. *)
Theorem get_llm_model_config_registered_ft supplier models key config :
  In (supplier, models) LLMModelConfig._model_defaults ->
  In (key, config) models ->
  LLMModelConfig.get_llm_model_config supplier (key +:+ "-ft") = Some config /\
  exists before key' after,
    models = (before ++ (key', config) :: after)%list /\
    startswith (key +:+ "-ft") key' = true /\
    Forall (fun e => startswith (key +:+ "-ft") e.1 = false) before.
Proof.
  intros Hs Hk.
  assert (Hget : LLMModelConfig.get_llm_model_config supplier (key +:+ "-ft") = Some config
                 /\ LLMModelConfig.first_config (key +:+ "-ft") models = Some config).
  { unfold LLMModelConfig._model_defaults in Hs. simpl in Hs.
    repeat (destruct Hs as [Hs|Hs]; [injection Hs as <- <-|]); [..|done];
      simpl in Hk;
      repeat (destruct Hk as [Hk|Hk]; [injection Hk as <- <-|]); try done;
      split; vm_compute; reflexivity. }
  destruct Hget as [Hget Hfirst]. split; [exact Hget|].
  by apply first_config_Some.
Qed.

Lemma get_llm_model_config_registered_ft_witness :
  LLMModelConfig.get_llm_model_config OPENAI "gpt-4o-mini-ft"
  = Some (LLMConfig.mk (Some 128000) (Some "Xenova/gpt-4o")).
Proof.
  refine (proj1 (get_llm_model_config_registered_ft OPENAI _ "gpt-4o-mini"
                   (LLMConfig.mk (Some 128000) (Some "Xenova/gpt-4o")) _ _)).
  - left. reflexivity.
  - right. left. reflexivity.
Defined.

(** ** Running the methods of [LLMEndpointConfig] *)

Lemma get_llm_model_config_of_typed s m :
  LLMModelConfig.get_llm_model_config_of (PSupplier s) (PStr m)
  = Ok (LLMModelConfig.get_llm_model_config s m).
Proof.
  destruct s; reflexivity.
Qed.

Lemma set_llm_model_config_run self s m :
  LLMEndpointConfig.supplier self = PSupplier s ->
  LLMEndpointConfig.model self = PStr m ->
  LLMEndpointConfig.set_llm_model_config self =
  (match LLMModelConfig.get_llm_model_config s m with
   | Some config =>
       LLMEndpointConfig.store "tokenizer_hub" (of_str (LLMConfig.tokenizer_hub config))
         (LLMEndpointConfig.store "context_length" (of_int (LLMConfig.context config)) self)
   | None => self
   end, Ok tt).
Proof.
  intros Hs Hm. unfold LLMEndpointConfig.set_llm_model_config. run_method.
  rewrite Hs, Hm, get_llm_model_config_of_typed.
  destruct (LLMModelConfig.get_llm_model_config s m); reflexivity.
Qed.

Lemma set_api_key_run environ force_reset self :
  LLMEndpointConfig.set_api_key environ force_reset self =
  if negb (truthy (LLMEndpointConfig.llm_api_key self)) || force_reset then
    match as_str (LLMEndpointConfig.env_variable_name self) with
    | None => (self, Raise (TypeError StrExpected))
    | Some n =>
        (LLMEndpointConfig.store "llm_api_key" (of_str (environ !! n)) self,
         if truthy (of_str (environ !! n)) then Ok tt
         else Raise (ValueError (ApiKeyNotSet (LLMEndpointConfig.env_variable_name self))))
    end
  else (self, Ok tt).
Proof.
  unfold LLMEndpointConfig.set_api_key, getenv. run_method.
  destruct (negb (truthy (LLMEndpointConfig.llm_api_key self))) eqn:Hkey;
    destruct force_reset; cbv beta iota delta [orb]; [| | |by rewrite Hkey].
  all: destruct (as_str (LLMEndpointConfig.env_variable_name self)) as [n|];
    [|reflexivity]; generalize (of_str (environ !! n)); intros key; simpl;
    destruct (truthy key); reflexivity.
Qed.

(** Construction, step by step: model resolution on the populated
    object, then the key. *)
Lemma init_run environ data :
  let self0 := LLMEndpointConfig.populate data in
  let self1 := (LLMEndpointConfig.set_llm_model_config self0).1 in
  let n := default LLMEndpointConfig.default_env_variable_name
             (LLMEndpointConfig.kw_env_variable_name data) in
  LLMEndpointConfig.init environ data =
  if truthy (of_str (LLMEndpointConfig.kw_llm_api_key data)) then Ok self1
  else if truthy (of_str (environ !! n)) then
    Ok (LLMEndpointConfig.store "llm_api_key" (of_str (environ !! n)) self1)
  else Raise (ValueError (ApiKeyNotSet (PStr n))).
Proof.
  intros self0 self1 n. unfold LLMEndpointConfig.init, construct.
  rewrite run_bind.
  pose proof (set_llm_model_config_run self0 _ _ eq_refl eq_refl) as Hcfg.
  assert (Hkey : LLMEndpointConfig.llm_api_key self1
                 = of_str (LLMEndpointConfig.kw_llm_api_key data)).
  { subst self1. rewrite Hcfg. by destruct (LLMModelConfig.get_llm_model_config _ _). }
  assert (Hname : LLMEndpointConfig.env_variable_name self1 = PStr n).
  { subst self1. rewrite Hcfg. by destruct (LLMModelConfig.get_llm_model_config _ _). }
  destruct (LLMEndpointConfig.set_llm_model_config self0) as [self1' [[]|e]] eqn:Hrun;
    [|by rewrite Hcfg in Hrun].
  change self1 with self1' in *. clear self1.
  change (LLMEndpointConfig.populate data) with self0. rewrite Hrun.
  rewrite set_api_key_run, Hkey, Hname.
  simpl as_str. destruct (truthy (of_str (LLMEndpointConfig.kw_llm_api_key data)));
    simpl; [done|]. by destruct (truthy (of_str (environ !! n))).
Qed.

(** ** Claims about [LLMEndpointConfig] construction *)

(** C1 (the code departs from it).  With supplier ANTHROPIC, no explicit
    key, and only [ANTHROPIC_API_KEY] set, construction raises and names
    [OPENAI_API_KEY]: the variable consulted is not the one of the
    configured supplier. *)
Theorem init_anthropic_reads_openai_variable :
  LLMEndpointConfig.init {[ "ANTHROPIC_API_KEY" := "sk-ant" ]}
    (LLMEndpointConfig.mk_kwargs (Some ANTHROPIC) (Some "claude-3-opus-20240229")
       None None None None None None None None None None)
  = Raise (ValueError (ApiKeyNotSet (PStr "OPENAI_API_KEY"))).
Proof. vm_compute. reflexivity. Qed.

(** The same for every supplier: when neither a key nor a variable name
    is passed, the outcome is decided by [OPENAI_API_KEY] alone. *)
Lemma init_reads_default_variable environ data :
  LLMEndpointConfig.kw_llm_api_key data = None ->
  LLMEndpointConfig.kw_env_variable_name data = None ->
  match environ !! "OPENAI_API_KEY" with
  | Some key =>
      if String.eqb key "" then
        LLMEndpointConfig.init environ data
        = Raise (ValueError (ApiKeyNotSet (PStr "OPENAI_API_KEY")))
      else
        exists cfg, LLMEndpointConfig.init environ data = Ok cfg /\
                    LLMEndpointConfig.llm_api_key cfg = PStr key
  | None =>
      LLMEndpointConfig.init environ data
      = Raise (ValueError (ApiKeyNotSet (PStr "OPENAI_API_KEY")))
  end.
Proof.
  intros Hkey Hname. rewrite init_run, Hkey, Hname. simpl.
  change LLMEndpointConfig.default_env_variable_name with "OPENAI_API_KEY".
  destruct (environ !! "OPENAI_API_KEY") as [key|]; simpl; [|done].
  destruct (String.eqb key ""); simpl; [done|]. eauto.
Qed.

(** C4.  With supplier OPENAI and model ["gpt-4o"], no explicit key (and
    the variable name left at its default), construction raises the
    missing-key error when [OPENAI_API_KEY] is unset. *)
Theorem init_openai_gpt4o_missing_key environ data :
  LLMEndpointConfig.kw_supplier data = Some OPENAI ->
  LLMEndpointConfig.kw_model data = Some "gpt-4o" ->
  LLMEndpointConfig.kw_llm_api_key data = None ->
  LLMEndpointConfig.kw_env_variable_name data = None ->
  environ !! "OPENAI_API_KEY" = None ->
  LLMEndpointConfig.init environ data
  = Raise (ValueError (ApiKeyNotSet (PStr "OPENAI_API_KEY"))).
Proof.
  intros _ _ Hkey Hname Henv.
  pose proof (init_reads_default_variable environ data Hkey Hname) as H.
  by rewrite Henv in H.
Qed.

Lemma init_openai_gpt4o_missing_key_witness :
  LLMEndpointConfig.init ∅
    (LLMEndpointConfig.mk_kwargs (Some OPENAI) (Some "gpt-4o")
       None None None None None None None None None None)
  = Raise (ValueError (ApiKeyNotSet (PStr "OPENAI_API_KEY"))).
Proof.
  apply init_openai_gpt4o_missing_key; reflexivity.
Defined.

(** ** [RerankerConfig] construction *)

(** The variable [validate_model] reads for a supplier. *)
Lemma api_key_var_value s :
  upper (reranker_value s) +:+ "_API_KEY"
  = match s with COHERE => "COHERE_API_KEY" | JINA => "JINA_API_KEY" end.
Proof. by destruct s. Qed.

Lemma reranker_init_run environ data :
  RerankerConfig.init environ data =
  match RerankerConfig.kw_supplier data with
  | None => Ok (RerankerConfig.populate data)
  | Some s =>
      match environ !! (upper (reranker_value s) +:+ "_API_KEY") with
      | Some key =>
          Ok {| RerankerConfig.supplier := Some s;
                RerankerConfig.model :=
                  Some (default (default_model s) (RerankerConfig.kw_model data));
                RerankerConfig.top_n := default 5 (RerankerConfig.kw_top_n data);
                RerankerConfig.api_key := Some key |}
      | None =>
          Raise (ValueError (ApiKeyNotSet (PStr (upper (reranker_value s) +:+ "_API_KEY"))))
      end
  end.
Proof.
  unfold RerankerConfig.init, RerankerConfig.validate_model, RerankerConfig.supplier_set.
  destruct data as [[s|] [m|] n k]; run_method; simpl; try reflexivity.
  all: destruct s; simpl;
    match goal with |- context [?e !! ?v] => destruct (e !! v) end;
    reflexivity.
Qed.

(** C7.  [RerankerConfig(supplier=COHERE)] without a model, with
    [COHERE_API_KEY] set, is constructed and its model is the default
    model of the supplier, ["rerank-multilingual-v3.0"]. *)
Theorem reranker_cohere_default_model environ data key :
  RerankerConfig.kw_supplier data = Some COHERE ->
  RerankerConfig.kw_model data = None ->
  environ !! "COHERE_API_KEY" = Some key ->
  exists cfg,
    RerankerConfig.init environ data = Ok cfg /\
    RerankerConfig.model cfg = Some "rerank-multilingual-v3.0" /\
    RerankerConfig.model cfg = Some (default_model COHERE).
Proof.
  intros Hs Hm Henv. rewrite reranker_init_run, Hs, api_key_var_value, Henv, Hm.
  eexists. split; [reflexivity|]. split; reflexivity.
Qed.

Lemma reranker_cohere_default_model_witness :
  exists cfg,
    RerankerConfig.init {[ "COHERE_API_KEY" := "co-key" ]}
      (RerankerConfig.mk_kwargs (Some COHERE) None None None) = Ok cfg /\
    RerankerConfig.model cfg = Some "rerank-multilingual-v3.0" /\
    RerankerConfig.model cfg = Some (default_model COHERE).
Proof.
  apply (reranker_cohere_default_model {[ "COHERE_API_KEY" := "co-key" ]}
           (RerankerConfig.mk_kwargs (Some COHERE) None None None) "co-key");
    reflexivity.
Defined.

(** C10.  With a supplier, the key of a [RerankerConfig] is the value of
    the variable [<SUPPLIER>_API_KEY], whatever key was passed to the
    constructor; when that variable is unset construction raises, also
    when a key was passed. *)
Theorem reranker_api_key_from_environment environ data s :
  RerankerConfig.kw_supplier data = Some s ->
  let api_key_var := upper (reranker_value s) +:+ "_API_KEY" in
  api_key_var = match s with COHERE => "COHERE_API_KEY" | JINA => "JINA_API_KEY" end /\
  match environ !! api_key_var with
  | Some key =>
      exists cfg, RerankerConfig.init environ data = Ok cfg /\
                  RerankerConfig.api_key cfg = Some key
  | None =>
      RerankerConfig.init environ data = Raise (ValueError (ApiKeyNotSet (PStr api_key_var)))
  end.
Proof.
  intros Hs api_key_var. split; [apply api_key_var_value|].
  rewrite reranker_init_run, Hs. fold api_key_var.
  destruct (environ !! api_key_var); [|done]. eexists. split; reflexivity.
Qed.

Lemma reranker_api_key_from_environment_witness :
  RerankerConfig.init ∅ (RerankerConfig.mk_kwargs (Some JINA) None None (Some "passed-in"))
  = Raise (ValueError (ApiKeyNotSet (PStr "JINA_API_KEY"))).
Proof.
  exact (proj2 (reranker_api_key_from_environment ∅
                  (RerankerConfig.mk_kwargs (Some JINA) None None (Some "passed-in"))
                  JINA eq_refl)).
Defined.

Example reranker_explicit_key_overwritten :
  RerankerConfig.api_key
    <$> (match RerankerConfig.init {[ "JINA_API_KEY" := "from-env" ]}
                 (RerankerConfig.mk_kwargs (Some JINA) None None (Some "passed-in")) with
         | Ok c => Some c | Raise _ => None end)
  = Some (Some "from-env").
Proof. vm_compute. reflexivity. Qed.

(** ** The key invariant *)

(** C2.  A constructed [LLMEndpointConfig] or [RerankerConfig] whose
    supplier is not [None] has a key that is not [None]; when no key can
    be obtained (none usable passed and the variable unset, for the
    endpoint; the variable unset, for the reranker with a supplier)
    construction raises instead. *)
Theorem api_key_present_after_construction environ :
  (forall data cfg,
     LLMEndpointConfig.init environ data = Ok cfg ->
     LLMEndpointConfig.supplier cfg <> PNone ->
     LLMEndpointConfig.llm_api_key cfg <> PNone) /\
  (forall data,
     truthy (of_str (LLMEndpointConfig.kw_llm_api_key data)) = false ->
     environ !! default LLMEndpointConfig.default_env_variable_name
                  (LLMEndpointConfig.kw_env_variable_name data) = None ->
     exists m, LLMEndpointConfig.init environ data = Raise (ValueError (ApiKeyNotSet m))) /\
  (forall data cfg,
     RerankerConfig.init environ data = Ok cfg ->
     RerankerConfig.supplier cfg <> None ->
     RerankerConfig.api_key cfg <> None) /\
  (forall data s,
     RerankerConfig.kw_supplier data = Some s ->
     environ !! (upper (reranker_value s) +:+ "_API_KEY") = None ->
     exists m, RerankerConfig.init environ data = Raise (ValueError (ApiKeyNotSet m))).
Proof.
  repeat split.
  - intros data cfg Hinit _. rewrite init_run in Hinit.
    pose proof (set_llm_model_config_run (LLMEndpointConfig.populate data) _ _
                  eq_refl eq_refl) as Hcfg.
    assert (Hkey : LLMEndpointConfig.llm_api_key
                     (LLMEndpointConfig.set_llm_model_config
                        (LLMEndpointConfig.populate data)).1
                   = of_str (LLMEndpointConfig.kw_llm_api_key data)).
    { rewrite Hcfg. by destruct (LLMModelConfig.get_llm_model_config _ _). }
    destruct (truthy (of_str (LLMEndpointConfig.kw_llm_api_key data))) eqn:Hk.
    + injection Hinit as <-. rewrite Hkey. intros Hnone. by rewrite Hnone in Hk.
    + destruct (truthy (of_str (environ !! _))) eqn:He; [|discriminate].
      injection Hinit as <-. simpl. intros Hnone. by rewrite Hnone in He.
  - intros data Hk Henv. rewrite init_run, Hk, Henv. simpl. eauto.
  - intros data cfg Hinit Hs. rewrite reranker_init_run in Hinit.
    destruct (RerankerConfig.kw_supplier data) as [s|] eqn:Hsup.
    + destruct (environ !! _); [|discriminate]. by injection Hinit as <-.
    + injection Hinit as <-. simpl in Hs. congruence.
  - intros data s Hs Henv. rewrite reranker_init_run, Hs, Henv. eauto.
Qed.

Lemma api_key_present_after_construction_witness :
  (exists cfg, LLMEndpointConfig.init {[ "OPENAI_API_KEY" := "x" ]}
                 LLMEndpointConfig.no_kwargs = Ok cfg /\
               LLMEndpointConfig.llm_api_key cfg <> PNone) /\
  (exists m, LLMEndpointConfig.init ∅ LLMEndpointConfig.no_kwargs
             = Raise (ValueError (ApiKeyNotSet m))) /\
  (exists cfg, RerankerConfig.init {[ "JINA_API_KEY" := "y" ]}
                 (RerankerConfig.mk_kwargs (Some JINA) None None None) = Ok cfg /\
               RerankerConfig.api_key cfg <> None) /\
  (exists m, RerankerConfig.init ∅ (RerankerConfig.mk_kwargs (Some COHERE) None None None)
             = Raise (ValueError (ApiKeyNotSet m))).
Proof.
  split; [|split; [|split]].
  - eexists. split; [vm_compute; reflexivity|].
    apply (proj1 (api_key_present_after_construction {[ "OPENAI_API_KEY" := "x" ]})
             LLMEndpointConfig.no_kwargs); [vm_compute; reflexivity|discriminate].
  - apply (proj1 (proj2 (api_key_present_after_construction ∅))); reflexivity.
  - eexists. split; [vm_compute; reflexivity|].
    apply (proj1 (proj2 (proj2 (api_key_present_after_construction
                                  {[ "JINA_API_KEY" := "y" ]})))
             (RerankerConfig.mk_kwargs (Some JINA) None None None));
      [vm_compute; reflexivity|discriminate].
  - apply (proj2 (proj2 (proj2 (api_key_present_after_construction ∅))) _ COHERE);
      reflexivity.
Defined.

(** ** Fields by name *)

Lemma getfield_store_ne f g v self :
  f <> g ->
  LLMEndpointConfig.getfield g (LLMEndpointConfig.store f v self)
  = LLMEndpointConfig.getfield g self.
Proof.
  intros Hne. unfold LLMEndpointConfig.getfield, LLMEndpointConfig.fields. simpl.
  repeat (destruct (decide (_ = g)) as [<-|?];
          [match goal with
           | |- context [String.eqb f ?s] => destruct (String.eqb_spec f s)
           end; [congruence|reflexivity]|]).
  reflexivity.
Qed.

Lemma is_field_elem name :
  LLMEndpointConfig.is_field name = true <-> In name LLMEndpointConfig.model_fields.
Proof.
  unfold LLMEndpointConfig.is_field. rewrite existsb_exists. split.
  - intros (x & Hx & Heq). apply String.eqb_eq in Heq. by subst.
  - intros H. exists name. split; [done|]. apply String.eqb_refl.
Qed.

Lemma getfield_store_eq f v self :
  LLMEndpointConfig.is_field f = true ->
  LLMEndpointConfig.getfield f (LLMEndpointConfig.store f v self) = Some v.
Proof.
  intros H. apply is_field_elem in H. simpl in H.
  repeat (destruct H as [<-|H]; [reflexivity|]). done.
Qed.

(** ** A model name the registry does not know *)

(** C9.  When the model name matches no registered prefix of the
    supplier, model resolution changes nothing: construction is the key
    check on the populated object, it can only raise the missing-key
    error, and on success [context_length] and [tokenizer_hub] are as
    passed in (or [None]) and every field other than the key is as
    populated. *)
Theorem init_unregistered_model environ data :
  let self0 := LLMEndpointConfig.populate data in
  LLMModelConfig.get_llm_model_config
    (default LLMEndpointConfig.default_supplier (LLMEndpointConfig.kw_supplier data))
    (default LLMEndpointConfig.default_model_name (LLMEndpointConfig.kw_model data))
  = None ->
  LLMEndpointConfig.set_llm_model_config self0 = (self0, Ok tt) /\
  LLMEndpointConfig.init environ data
  = construct self0 (LLMEndpointConfig.set_api_key environ false) /\
  (forall e, LLMEndpointConfig.init environ data = Raise e ->
             e = ValueError (ApiKeyNotSet (LLMEndpointConfig.env_variable_name self0))) /\
  (forall cfg, LLMEndpointConfig.init environ data = Ok cfg ->
     LLMEndpointConfig.context_length cfg = of_int (LLMEndpointConfig.kw_context_length data) /\
     LLMEndpointConfig.tokenizer_hub cfg = of_str (LLMEndpointConfig.kw_tokenizer_hub data) /\
     forall name, name <> "llm_api_key" ->
       LLMEndpointConfig.getfield name cfg = LLMEndpointConfig.getfield name self0).
Proof.
  intros self0 Hmiss.
  assert (Hcfg : LLMEndpointConfig.set_llm_model_config self0 = (self0, Ok tt)).
  { rewrite (set_llm_model_config_run self0 _ _ eq_refl eq_refl). by rewrite Hmiss. }
  pose proof (init_run environ data) as Hinit. simpl in Hinit.
  fold self0 in Hinit. rewrite Hcfg in Hinit. simpl in Hinit.
  split; [exact Hcfg|]. split.
  { unfold LLMEndpointConfig.init. fold self0. unfold construct.
    rewrite run_bind, Hcfg. reflexivity. }
  split.
  - intros e He. rewrite Hinit in He.
    destruct (truthy (of_str (LLMEndpointConfig.kw_llm_api_key data))); [discriminate|].
    destruct (truthy (of_str (environ !! _))); [discriminate|]. by injection He as <-.
  - intros cfg Hok. rewrite Hinit in Hok.
    destruct (truthy (of_str (LLMEndpointConfig.kw_llm_api_key data))).
    + injection Hok as <-. auto.
    + destruct (truthy (of_str (environ !! _))); [|discriminate].
      injection Hok as <-. repeat split. intros name Hne.
      apply getfield_store_ne. congruence.
Qed.

Lemma init_unregistered_model_witness :
  LLMEndpointConfig.init {[ "OPENAI_API_KEY" := "x" ]}
    (LLMEndpointConfig.mk_kwargs (Some OPENAI) (Some "davinci-002") (Some 4096)
       None None None None None None None None None)
  = construct
      (LLMEndpointConfig.populate
         (LLMEndpointConfig.mk_kwargs (Some OPENAI) (Some "davinci-002") (Some 4096)
            None None None None None None None None None))
      (LLMEndpointConfig.set_api_key {[ "OPENAI_API_KEY" := "x" ]} false).
Proof.
  refine (proj1 (proj2 (init_unregistered_model _ _ _))). reflexivity.
Defined.

Example init_unregistered_model_keeps_context :
  LLMEndpointConfig.context_length
    <$> (match LLMEndpointConfig.init {[ "OPENAI_API_KEY" := "x" ]}
                 (LLMEndpointConfig.mk_kwargs (Some OPENAI) (Some "davinci-002") (Some 4096)
                    None None None None None None None None None) with
         | Ok c => Some c | Raise _ => None end)
  = Some (PInt 4096).
Proof. vm_compute. reflexivity. Qed.

(** ** [set_llm_model] *)

Lemma set_llm_model_run environ model self s :
  LLMModelConfig.get_supplier_by_model_name model = Some s ->
  LLMEndpointConfig.set_llm_model environ model self =
  LLMEndpointConfig.set_api_key environ true
    (LLMEndpointConfig.set_llm_model_config
       (LLMEndpointConfig.store "model" (PStr model)
          (LLMEndpointConfig.store "supplier" (PSupplier s) self))).1.
Proof.
  intros Hs. unfold LLMEndpointConfig.set_llm_model. rewrite Hs.
  set (self1 := LLMEndpointConfig.store "model" _ _).
  pose proof (set_llm_model_config_run self1 s model eq_refl eq_refl) as Hcfg.
  run_method. fold self1. by rewrite Hcfg.
Qed.

(** C5.  Reverse lookup answers the supplier of the first registered key,
    over all suppliers in registration order, that the model name starts
    with; when no registered key is a prefix of the model name it answers
    [None], and [set_llm_model] raises the unknown-model error and leaves
    the object as it was. *)
Theorem set_llm_model_unknown_model environ model self :
  LLMModelConfig.get_supplier_by_model_name model = supplier_for model /\
  (Forall (fun e => startswith model e.1.2 = false) registered ->
   LLMModelConfig.get_supplier_by_model_name model = None /\
   LLMEndpointConfig.set_llm_model environ model self
   = (self, Raise (ValueError (NoSupplierForModel model)))).
Proof.
  split; [apply get_supplier_by_model_name_spec|]. intros Hnone.
  assert (Hget : LLMModelConfig.get_supplier_by_model_name model = None).
  { rewrite get_supplier_by_model_name_spec. unfold supplier_for.
    destruct (find _ registered) as [e|] eqn:Hfind; [|done].
    apply find_some in Hfind as [Hin Hpre].
    rewrite Forall_forall in Hnone. apply list_elem_of_In, Hnone in Hin. congruence. }
  split; [exact Hget|].
  unfold LLMEndpointConfig.set_llm_model. by rewrite Hget.
Qed.

Lemma set_llm_model_unknown_model_witness :
  LLMEndpointConfig.set_llm_model ∅ "gemini-1.5-pro"
    (LLMEndpointConfig.populate LLMEndpointConfig.no_kwargs)
  = (LLMEndpointConfig.populate LLMEndpointConfig.no_kwargs,
     Raise (ValueError (NoSupplierForModel "gemini-1.5-pro"))).
Proof.
  refine (proj2 (proj2 (set_llm_model_unknown_model _ _ _) _)).
  unfold registered. simpl. repeat constructor.
Defined.

(** C6.  [set_llm_model("claude-3-opus-20240229")] leaves the supplier at
    ANTHROPIC and the context length at 200000 on whatever object it is
    called, also when the key check that ends the method raises; with a
    non-empty key in the variable the object names, it returns. *)
Theorem set_llm_model_claude_3_opus environ self :
  let after := LLMEndpointConfig.set_llm_model environ "claude-3-opus-20240229" self in
  LLMEndpointConfig.supplier after.1 = PSupplier ANTHROPIC /\
  LLMEndpointConfig.context_length after.1 = PInt 200000 /\
  (forall n key,
     as_str (LLMEndpointConfig.env_variable_name self) = Some n ->
     environ !! n = Some key -> key <> "" -> after.2 = Ok tt).
Proof.
  intros after. subst after.
  rewrite (set_llm_model_run _ _ _ ANTHROPIC) by reflexivity.
  set (self1 := LLMEndpointConfig.store "model" _ _).
  rewrite (set_llm_model_config_run self1 ANTHROPIC "claude-3-opus-20240229"
             eq_refl eq_refl).
  change (LLMModelConfig.get_llm_model_config ANTHROPIC "claude-3-opus-20240229")
    with (Some (LLMConfig.mk (Some 200000) (Some "Xenova/claude-tokenizer"))).
  cbv beta iota. rewrite set_api_key_run. rewrite orb_true_r.
  change (LLMEndpointConfig.env_variable_name _)
    with (LLMEndpointConfig.env_variable_name self).
  destruct (as_str (LLMEndpointConfig.env_variable_name self)) as [n|].
  - split; [reflexivity|]. split; [reflexivity|].
    intros n' key [= <-] Hkey Hne. cbn [snd]. rewrite Hkey. simpl.
    destruct (String.eqb_spec key ""); [done|reflexivity].
  - split; [reflexivity|]. split; [reflexivity|]. intros n key Hn. discriminate.
Qed.

Lemma set_llm_model_claude_3_opus_witness :
  (LLMEndpointConfig.set_llm_model {[ "OPENAI_API_KEY" := "x" ]} "claude-3-opus-20240229"
     (LLMEndpointConfig.populate LLMEndpointConfig.no_kwargs)).2 = Ok tt.
Proof.
  apply (proj2 (proj2 (set_llm_model_claude_3_opus _ _)) "OPENAI_API_KEY" "x");
    [reflexivity|reflexivity|discriminate].
Defined.

(** ** [set_from_sqlmodel] *)

Section SetFromSqlmodelFacts.

Variable base_hasattr : string -> bool.
Variable base_setattr : string -> PyVal -> Method LLMEndpointConfig.t unit.

Abbreviation hasattr := (LLMEndpointConfig.hasattr base_hasattr).
Abbreviation setattr := (LLMEndpointConfig.setattr base_setattr).
Abbreviation set_from_sqlmodel :=
  (LLMEndpointConfig.set_from_sqlmodel base_hasattr base_setattr).

Lemma set_from_sqlmodel_cons sqlmodel model_field llm_field rest self :
  set_from_sqlmodel sqlmodel ((model_field, llm_field) :: rest) self =
  match sqlmodel !! model_field with
  | Some v =>
      if hasattr self llm_field then
        match setattr llm_field v self with
        | (self', Ok _) => set_from_sqlmodel sqlmodel rest self'
        | (self', Raise e) => (self', Raise e)
        end
      else (self, Raise (AttributeError (InvalidMapping model_field llm_field)))
  | None => (self, Raise (AttributeError (InvalidMapping model_field llm_field)))
  end.
Proof.
  cbn [LLMEndpointConfig.set_from_sqlmodel]. run_method.
  destruct (sqlmodel !! model_field); [|reflexivity].
  destruct (hasattr self llm_field); reflexivity.
Qed.

Lemma hasattr_field self name :
  LLMEndpointConfig.is_field name = true -> hasattr self name = true.
Proof. intros H. unfold LLMEndpointConfig.hasattr. by rewrite H. Qed.

Lemma setattr_field name v self :
  LLMEndpointConfig.is_field name = true ->
  setattr name v self = (LLMEndpointConfig.store name v self, Ok tt).
Proof. intros H. unfold LLMEndpointConfig.setattr. by rewrite H. Qed.

(** An entry that fails the existence test raises, whatever precedes it. *)
Lemma set_from_sqlmodel_invalid_raises sqlmodel mapping self :
  Exists (fun e => sqlmodel !! e.1 = None \/ hasattr self e.2 = false) mapping ->
  exists self' exn, set_from_sqlmodel sqlmodel mapping self = (self', Raise exn).
Proof.
  revert self. induction mapping as [|[mf lf] rest IH]; intros self Hex.
  { inversion Hex. }
  rewrite set_from_sqlmodel_cons.
  destruct (sqlmodel !! mf) as [v|] eqn:Hsrc; [|eauto].
  destruct (hasattr self lf) eqn:Htgt; [|eauto].
  destruct (setattr lf v self) as [self' [[]|e]]; [|eauto].
  apply IH. inversion Hex as [? ? [Hbad|Hbad]|? ? Hrest]; subst; simpl in *.
  - congruence.
  - congruence.
  - exact Hrest.
Qed.

(** Valid entries are assigned one after the other. *)
Lemma set_from_sqlmodel_valid sqlmodel mapping self :
  Forall (fun e => is_Some (sqlmodel !! e.1) /\ LLMEndpointConfig.is_field e.2 = true)
    mapping ->
  set_from_sqlmodel sqlmodel mapping self = (assign_all sqlmodel mapping self, Ok tt).
Proof.
  revert self. induction mapping as [|[mf lf] rest IH]; intros self Hall.
  { reflexivity. }
  inversion Hall as [|? ? [[v Hsrc] Htgt] Hrest]; subst. cbn [fst snd] in *.
  rewrite set_from_sqlmodel_cons, Hsrc, (hasattr_field _ _ Htgt), (setattr_field _ _ _ Htgt).
  rewrite (IH _ Hrest). unfold assign_all. simpl. by rewrite Hsrc.
Qed.

(** The first entry that fails the existence test, after valid ones,
    raises the invalid-mapping error; the earlier assignments stay. *)
Lemma set_from_sqlmodel_first_invalid sqlmodel before model_field llm_field after self :
  Forall (fun e => is_Some (sqlmodel !! e.1) /\ LLMEndpointConfig.is_field e.2 = true)
    before ->
  sqlmodel !! model_field = None \/ hasattr self llm_field = false ->
  set_from_sqlmodel sqlmodel (before ++ (model_field, llm_field) :: after)%list self
  = (assign_all sqlmodel before self,
     Raise (AttributeError (InvalidMapping model_field llm_field))).
Proof.
  revert self. induction before as [|[mf lf] rest IH]; intros self Hall Hbad.
  - simpl app. rewrite set_from_sqlmodel_cons.
    destruct Hbad as [->|Hbad]; [reflexivity|].
    rewrite Hbad. by destruct (sqlmodel !! model_field).
  - inversion Hall as [|? ? [[v Hsrc] Htgt] Hrest]; subst. cbn [fst snd] in *.
    rewrite <- app_comm_cons.
    rewrite set_from_sqlmodel_cons, Hsrc, (hasattr_field _ _ Htgt),
      (setattr_field _ _ _ Htgt).
    rewrite (IH (LLMEndpointConfig.store lf v self) Hrest Hbad). unfold assign_all. simpl. by rewrite Hsrc.
Qed.

End SetFromSqlmodelFacts.

Lemma assign_all_app sqlmodel l1 l2 self :
  assign_all sqlmodel (l1 ++ l2)%list self
  = assign_all sqlmodel l2 (assign_all sqlmodel l1 self).
Proof. apply fold_left_app. Qed.

Lemma assign_all_cons sqlmodel model_field llm_field rest self :
  assign_all sqlmodel ((model_field, llm_field) :: rest) self
  = assign_all sqlmodel rest
      (match sqlmodel !! model_field with
       | Some v => LLMEndpointConfig.store llm_field v self
       | None => self
       end).
Proof. reflexivity. Qed.

Lemma assign_all_untouched sqlmodel mapping name self :
  ~ In name (map snd mapping) ->
  LLMEndpointConfig.getfield name (assign_all sqlmodel mapping self)
  = LLMEndpointConfig.getfield name self.
Proof.
  revert self. induction mapping as [|[mf lf] rest IH]; intros self Hnot; [done|].
  simpl in Hnot. rewrite assign_all_cons, IH by tauto.
  destruct (sqlmodel !! mf); [|done]. apply getfield_store_ne. tauto.
Qed.

Lemma assign_all_last sqlmodel before model_field llm_field after v self :
  In llm_field LLMEndpointConfig.model_fields ->
  sqlmodel !! model_field = Some v ->
  ~ In llm_field (map snd after) ->
  LLMEndpointConfig.getfield llm_field
    (assign_all sqlmodel (before ++ (model_field, llm_field) :: after)%list self)
  = Some v.
Proof.
  intros Hfield Hsrc Hlast. rewrite assign_all_app.
  change ((model_field, llm_field) :: after) with ([(model_field, llm_field)] ++ after)%list.
  rewrite assign_all_app, assign_all_untouched by done.
  rewrite assign_all_cons, Hsrc. change (assign_all sqlmodel [] ?x) with x.
  apply getfield_store_eq. by apply is_field_elem.
Qed.

(** C8 (as the code has it).  An entry whose source attribute is missing
    on the source object, or whose target attribute is missing on the
    config, makes the call raise.  When every source attribute exists and
    every target is a declared field, the call returns and has assigned
    the entries in order: each target field holds the source value of the
    last entry that names it, and fields no entry names are unchanged. *)
Theorem set_from_sqlmodel_mapping base_hasattr base_setattr sqlmodel mapping self :
  let run := LLMEndpointConfig.set_from_sqlmodel base_hasattr base_setattr
               sqlmodel mapping self in
  (Exists (fun e => sqlmodel !! e.1 = None \/
                    LLMEndpointConfig.hasattr base_hasattr self e.2 = false) mapping ->
   exists self' exn, run = (self', Raise exn)) /\
  (Forall (fun e => is_Some (sqlmodel !! e.1) /\ In e.2 LLMEndpointConfig.model_fields)
     mapping ->
   run = (assign_all sqlmodel mapping self, Ok tt) /\
   (forall before model_field llm_field after v,
      mapping = (before ++ (model_field, llm_field) :: after)%list ->
      sqlmodel !! model_field = Some v ->
      ~ In llm_field (map snd after) ->
      LLMEndpointConfig.getfield llm_field run.1 = Some v) /\
   (forall name,
      ~ In name (map snd mapping) ->
      LLMEndpointConfig.getfield name run.1 = LLMEndpointConfig.getfield name self)).
Proof.
  intros run. split.
  - apply set_from_sqlmodel_invalid_raises.
  - intros Hall.
    assert (Hrun : run = (assign_all sqlmodel mapping self, Ok tt)).
    { apply set_from_sqlmodel_valid. eapply Forall_impl; [exact Hall|].
      intros e [Hsrc Htgt]. split; [done|]. by apply is_field_elem. }
    split; [exact Hrun|]. rewrite Hrun. cbn [fst]. split.
    + intros before mf lf after v -> Hsrc Hlast.
      apply assign_all_last; [|done..].
      apply Forall_app in Hall as [_ Hall]. inversion Hall as [|? ? [_ Htgt] _]. done.
    + intros name Hnot. by apply assign_all_untouched.
Qed.

Lemma set_from_sqlmodel_mapping_witness :
  LLMEndpointConfig.set_from_sqlmodel (fun _ => false) (fun _ _ => mret tt)
    {[ "max_input" := PInt 4000; "name" := PStr "gpt-4o" ]}
    [("max_input", "max_input_tokens"); ("name", "model")]
    (LLMEndpointConfig.populate LLMEndpointConfig.no_kwargs)
  = (assign_all {[ "max_input" := PInt 4000; "name" := PStr "gpt-4o" ]}
       [("max_input", "max_input_tokens"); ("name", "model")]
       (LLMEndpointConfig.populate LLMEndpointConfig.no_kwargs), Ok tt).
Proof.
  refine (proj1 (proj2 (set_from_sqlmodel_mapping (fun _ => false) (fun _ _ => mret tt)
                          {[ "max_input" := PInt 4000; "name" := PStr "gpt-4o" ]}
                          [("max_input", "max_input_tokens"); ("name", "model")]
                          (LLMEndpointConfig.populate LLMEndpointConfig.no_kwargs)) _)).
  repeat (constructor; [split; [by eexists|simpl; tauto]|]). constructor.
Defined.

(** C8 as stated fails: [fallback_tokenizer] exists on the config (it is
    a property of the class), the source attribute exists, and the call
    still raises, because the property has no setter. *)
Lemma set_from_sqlmodel_property_target_raises :
  is_Some (({[ "tokenizer" := PStr "cl100k_base" ]} : gmap string PyVal) !! "tokenizer") /\
  LLMEndpointConfig.hasattr (fun _ => false)
    (LLMEndpointConfig.populate LLMEndpointConfig.no_kwargs) "fallback_tokenizer" = true /\
  LLMEndpointConfig.set_from_sqlmodel (fun _ => false) (fun _ _ => mret tt)
    {[ "tokenizer" := PStr "cl100k_base" ]} [("tokenizer", "fallback_tokenizer")]
    (LLMEndpointConfig.populate LLMEndpointConfig.no_kwargs)
  = (LLMEndpointConfig.populate LLMEndpointConfig.no_kwargs,
     Raise (AttributeError (NoSetter "fallback_tokenizer"))).
Proof.
  split; [by eexists|]. split; [reflexivity|]. vm_compute. reflexivity.
Qed.

(** The same whatever the base classes add or accept. *)
Lemma property_target_raises_under_any_base
    base_hasattr base_setattr sqlmodel model_field v self rest :
  sqlmodel !! model_field = Some v ->
  LLMEndpointConfig.hasattr base_hasattr self "fallback_tokenizer" = true /\
  LLMEndpointConfig.set_from_sqlmodel base_hasattr base_setattr sqlmodel
    ((model_field, "fallback_tokenizer") :: rest) self
  = (self, Raise (AttributeError (NoSetter "fallback_tokenizer"))).
Proof.
  intros Hsrc. split; [reflexivity|].
  rewrite set_from_sqlmodel_cons, Hsrc. reflexivity.
Qed.

(** * Further properties of the code *)

(** ** Forward and reverse lookup together *)

Lemma scan_models_Some supplier model models found :
  LLMModelConfig.scan_models supplier model models = Some found ->
  found = supplier /\ exists config, LLMModelConfig.first_config model models = Some config.
Proof.
  induction models as [|[k c] rest IH]; simpl; [discriminate|].
  destruct (startswith model k); [|exact IH].
  intros [= <-]. eauto.
Qed.

Lemma scan_suppliers_Some model items found :
  LLMModelConfig.scan_suppliers model items = Some found ->
  exists models config,
    In (found, models) items /\ LLMModelConfig.first_config model models = Some config.
Proof.
  induction items as [|[s models] rest IH]; simpl; [discriminate|].
  destruct (LLMModelConfig.scan_models s model models) as [s'|] eqn:Hscan.
  - intros [= <-]. apply scan_models_Some in Hscan as [-> [config Hc]].
    exists models, config. auto.
  - intros H. destruct (IH H) as (models' & config & Hin & Hc).
    exists models', config. auto.
Qed.

Lemma dict_get_In {K V : Type} `{EqDecision K} (key : K) (v : V) (d : list (K * V)) :
  NoDup (map fst d) -> In (key, v) d -> dict_get key d = Some v.
Proof.
  induction d as [|[k w] rest IH]; simpl; [done|].
  intros Hnd [Heq|Hin].
  - injection Heq as -> ->. by rewrite decide_True.
  - apply NoDup_cons in Hnd as [Hk Hnd]. rewrite decide_False; [auto|].
    intros ->. apply Hk. apply list_elem_of_In, in_map_iff. by exists (key, v).
Qed.

Lemma model_defaults_suppliers_distinct :
  NoDup (map fst LLMModelConfig._model_defaults).
Proof.
  unfold LLMModelConfig._model_defaults. simpl.
  repeat (apply NoDup_cons; split; [rewrite !list_elem_of_In; simpl; intuition discriminate|]).
  apply NoDup_nil. done.
Qed.

(** Every registered config has a tokenizer and a positive context
    length. *)
Lemma registered_configs_complete supplier models key config :
  In (supplier, models) LLMModelConfig._model_defaults ->
  In (key, config) models ->
  exists n tok, config = LLMConfig.mk (Some n) (Some tok) /\ 0 < n.
Proof.
  intros Hs Hk. unfold LLMModelConfig._model_defaults in Hs. simpl in Hs.
  repeat (destruct Hs as [Hs|Hs]; [injection Hs as <- <-|]); [..|done];
    simpl in Hk;
    repeat (destruct Hk as [Hk|Hk]; [injection Hk as <- <-|]); try done;
    eexists _, _; split; reflexivity.
Qed.

Lemma first_config_In model_name items config :
  LLMModelConfig.first_config model_name items = Some config ->
  exists key, In (key, config) items.
Proof.
  intros H. apply first_config_Some in H as (before & key & after & -> & _).
  exists key. apply in_or_app. right. by left.
Qed.

Lemma reverse_lookup_hit model supplier :
  LLMModelConfig.get_supplier_by_model_name model = Some supplier ->
  exists models key config,
    In (supplier, models) LLMModelConfig._model_defaults /\
    In (key, config) models /\
    LLMModelConfig.get_llm_model_config supplier model = Some config.
Proof.
  intros Hrev. apply scan_suppliers_Some in Hrev as (models & config & Hin & Hc).
  destruct (first_config_In _ _ _ Hc) as [key Hkey].
  exists models, key, config. split; [exact Hin|]. split; [exact Hkey|].
  unfold LLMModelConfig.get_llm_model_config.
  rewrite (dict_get_In _ _ _ model_defaults_suppliers_distinct Hin).
  destruct models; [done|exact Hc].
Qed.

(** X1.  A model name for which reverse lookup finds a supplier is also
    found by the forward lookup under that supplier, and what is found
    has a tokenizer and a positive context length. *)
Theorem reverse_lookup_then_lookup model supplier :
  LLMModelConfig.get_supplier_by_model_name model = Some supplier ->
  exists n tok,
    LLMModelConfig.get_llm_model_config supplier model
    = Some (LLMConfig.mk (Some n) (Some tok)) /\ 0 < n.
Proof.
  intros Hrev.
  destruct (reverse_lookup_hit _ _ Hrev) as (models & key & config & Hin & Hkey & Hcfg).
  destruct (registered_configs_complete _ _ _ _ Hin Hkey) as (n & tok & -> & Hpos).
  exists n, tok. split; [exact Hcfg|exact Hpos].
Qed.

Lemma reverse_lookup_then_lookup_witness :
  exists n tok,
    LLMModelConfig.get_llm_model_config MISTRAL "mistral-large-2407"
    = Some (LLMConfig.mk (Some n) (Some tok)) /\ 0 < n.
Proof.
  apply reverse_lookup_then_lookup. reflexivity.
Defined.

(** X2.  Reverse lookup never answers GROQ or AZURE: AZURE registers no
    key, and every key of GROQ is also a key of META, which is scanned
    first. *)
Theorem reverse_lookup_never_groq_or_azure model :
  LLMModelConfig.get_supplier_by_model_name model <> Some GROQ /\
  LLMModelConfig.get_supplier_by_model_name model <> Some AZURE.
Proof.
  unfold LLMModelConfig.get_supplier_by_model_name, LLMModelConfig._model_defaults.
  cbn [LLMModelConfig.scan_suppliers LLMModelConfig.scan_models].
  repeat match goal with
         | |- context [if startswith model ?k then _ else _] =>
             destruct (startswith model k)
         end;
    split; discriminate.
Qed.

Lemma string_prefix_empty s : String.prefix "" s = true.
Proof. by destruct s. Qed.

Lemma startswith_app_true key k suffix :
  startswith key k = true -> startswith (key +:+ suffix) k = true.
Proof.
  unfold startswith. revert key. induction k as [|a k IH]; intros key.
  - intros _. apply string_prefix_empty.
  - destruct key as [|b key]; simpl; [discriminate|].
    destruct (ascii_dec a b); [apply IH|discriminate].
Qed.

Lemma startswith_app_false key k suffix :
  startswith key k = false -> startswith k key = false ->
  startswith (key +:+ suffix) k = false.
Proof.
  unfold startswith. revert key. induction k as [|a k IH]; intros key.
  - by rewrite string_prefix_empty.
  - destruct key as [|b key]; [by rewrite string_prefix_empty|]. simpl.
    destruct (ascii_dec a b) as [->|Hne].
    + destruct (ascii_dec b b); [apply IH|done].
    + done.
Qed.

(** X3.  A model name that extends a registered key, by any suffix,
    reverse-looks-up to the supplier the key is registered under, except
    that the keys of GROQ answer META. *)
Theorem reverse_lookup_of_registered_key supplier models key config suffix :
  In (supplier, models) LLMModelConfig._model_defaults ->
  In (key, config) models ->
  LLMModelConfig.get_supplier_by_model_name (key +:+ suffix)
  = Some (if decide (supplier = GROQ) then META else supplier).
Proof.
  intros Hs Hk. unfold LLMModelConfig._model_defaults in Hs. simpl in Hs.
  repeat (destruct Hs as [Hs|Hs]; [injection Hs as <- <-|]); [..|done];
    simpl in Hk;
    repeat (destruct Hk as [Hk|Hk]; [injection Hk as <- <-|]); try done;
    unfold LLMModelConfig.get_supplier_by_model_name, LLMModelConfig._model_defaults;
    cbn [LLMModelConfig.scan_suppliers LLMModelConfig.scan_models];
    repeat match goal with
           | |- context [startswith (?key +:+ suffix) ?k] =>
               first [ rewrite (startswith_app_true key k suffix) by reflexivity
                     | rewrite (startswith_app_false key k suffix) by reflexivity
                     | destruct (startswith (key +:+ suffix) k) ]
           end;
    reflexivity.
Qed.

Lemma reverse_lookup_of_registered_key_witness :
  LLMModelConfig.get_supplier_by_model_name ("llama-3.1" +:+ "-70b-versatile") = Some META.
Proof.
  refine (reverse_lookup_of_registered_key GROQ _ "llama-3.1"
            (LLMConfig.mk (Some 128000) (Some "Xenova/Meta-Llama-3.1-Tokenizer"))
            "-70b-versatile" _ _).
  - do 3 right. left. reflexivity.
  - left. reflexivity.
Defined.

(** ** [set_llm_model] on a known model *)

Lemma set_llm_model_known environ model self supplier :
  LLMModelConfig.get_supplier_by_model_name model = Some supplier ->
  exists n tok,
    0 < n /\
    LLMEndpointConfig.set_llm_model environ model self =
    LLMEndpointConfig.set_api_key environ true
      (LLMEndpointConfig.store "tokenizer_hub" (PStr tok)
         (LLMEndpointConfig.store "context_length" (PInt n)
            (LLMEndpointConfig.store "model" (PStr model)
               (LLMEndpointConfig.store "supplier" (PSupplier supplier) self)))).
Proof.
  intros Hrev.
  destruct (reverse_lookup_hit _ _ Hrev) as (models & key & config & Hin & Hkey & Hcfg).
  destruct (registered_configs_complete _ _ _ _ Hin Hkey) as (n & tok & -> & Hpos).
  exists n, tok. split; [exact Hpos|].
  rewrite (set_llm_model_run _ _ _ _ Hrev).
  set (self1 := LLMEndpointConfig.store "model" _ _).
  rewrite (set_llm_model_config_run self1 supplier model eq_refl eq_refl), Hcfg.
  reflexivity.
Qed.

(** X4.  When [set_llm_model] finds a supplier, the object ends up with
    that supplier, the given model name, and the context length (a
    positive integer) and tokenizer the registry holds for them, whether
    the key check that follows returns or raises. *)
Theorem set_llm_model_resolves environ model self supplier :
  LLMModelConfig.get_supplier_by_model_name model = Some supplier ->
  let after := (LLMEndpointConfig.set_llm_model environ model self).1 in
  exists n tok,
    0 < n /\
    LLMModelConfig.get_llm_model_config supplier model
    = Some (LLMConfig.mk (Some n) (Some tok)) /\
    LLMEndpointConfig.supplier after = PSupplier supplier /\
    LLMEndpointConfig.model after = PStr model /\
    LLMEndpointConfig.context_length after = PInt n /\
    LLMEndpointConfig.tokenizer_hub after = PStr tok.
Proof.
  intros Hrev after. subst after.
  destruct (reverse_lookup_hit _ _ Hrev) as (models & key & config & Hin & Hkey & Hcfg).
  destruct (registered_configs_complete _ _ _ _ Hin Hkey) as (n & tok & -> & Hpos).
  exists n, tok. split; [exact Hpos|]. split; [exact Hcfg|].
  rewrite (set_llm_model_run _ _ _ _ Hrev).
  set (self1 := LLMEndpointConfig.store "model" _ _).
  rewrite (set_llm_model_config_run self1 supplier model eq_refl eq_refl), Hcfg.
  cbv beta iota. rewrite set_api_key_run, orb_true_r.
  destruct (as_str _); repeat split.
Qed.

Lemma set_llm_model_resolves_witness :
  exists n tok,
    0 < n /\
    LLMModelConfig.get_llm_model_config META "llama-3.1-8b"
    = Some (LLMConfig.mk (Some n) (Some tok)) /\
    LLMEndpointConfig.supplier
      (LLMEndpointConfig.set_llm_model ∅ "llama-3.1-8b"
         (LLMEndpointConfig.populate LLMEndpointConfig.no_kwargs)).1 = PSupplier META /\
    LLMEndpointConfig.model
      (LLMEndpointConfig.set_llm_model ∅ "llama-3.1-8b"
         (LLMEndpointConfig.populate LLMEndpointConfig.no_kwargs)).1 = PStr "llama-3.1-8b" /\
    LLMEndpointConfig.context_length
      (LLMEndpointConfig.set_llm_model ∅ "llama-3.1-8b"
         (LLMEndpointConfig.populate LLMEndpointConfig.no_kwargs)).1 = PInt n /\
    LLMEndpointConfig.tokenizer_hub
      (LLMEndpointConfig.set_llm_model ∅ "llama-3.1-8b"
         (LLMEndpointConfig.populate LLMEndpointConfig.no_kwargs)).1 = PStr tok.
Proof.
  apply (set_llm_model_resolves ∅ "llama-3.1-8b"
           (LLMEndpointConfig.populate LLMEndpointConfig.no_kwargs) META).
  reflexivity.
Defined.

(** X5.  On a known model [set_llm_model] discards the key the object
    held and takes the value of the variable the object names: the call
    returns when that value is a non-empty string, and otherwise raises
    the missing-key error and leaves the key [None] (or empty). *)
Theorem set_llm_model_rereads_key environ model self supplier name :
  LLMModelConfig.get_supplier_by_model_name model = Some supplier ->
  as_str (LLMEndpointConfig.env_variable_name self) = Some name ->
  let after := LLMEndpointConfig.set_llm_model environ model self in
  LLMEndpointConfig.llm_api_key after.1 = of_str (environ !! name) /\
  after.2 =
    match environ !! name with
    | Some key =>
        if String.eqb key "" then
          Raise (ValueError (ApiKeyNotSet (LLMEndpointConfig.env_variable_name self)))
        else Ok tt
    | None => Raise (ValueError (ApiKeyNotSet (LLMEndpointConfig.env_variable_name self)))
    end.
Proof.
  intros Hrev Hname after. subst after.
  destruct (set_llm_model_known environ model self supplier Hrev) as (n & tok & _ & ->).
  rewrite set_api_key_run, orb_true_r.
  change (LLMEndpointConfig.env_variable_name _)
    with (LLMEndpointConfig.env_variable_name self).
  rewrite Hname. cbn [fst snd]. split; [reflexivity|].
  destruct (environ !! name) as [key|]; [|reflexivity]. simpl.
  by destruct (String.eqb key "").
Qed.

Lemma set_llm_model_rereads_key_witness :
  LLMEndpointConfig.llm_api_key
    (LLMEndpointConfig.set_llm_model ∅ "gpt-4o"
       (LLMEndpointConfig.populate
          (LLMEndpointConfig.mk_kwargs None None None None None None (Some "sk-passed")
             None None None None None))).1 = PNone.
Proof.
  exact (proj1 (set_llm_model_rereads_key ∅ "gpt-4o"
                  (LLMEndpointConfig.populate
                     (LLMEndpointConfig.mk_kwargs None None None None None None
                        (Some "sk-passed") None None None None None))
                  OPENAI "OPENAI_API_KEY" eq_refl eq_refl)).
Defined.

(** X6.  [set_llm_model] touches no field other than [supplier],
    [model], [context_length], [tokenizer_hub] and [llm_api_key], on any
    object, for any model name and whatever the outcome; in particular it
    keeps [env_variable_name]. *)
Theorem set_llm_model_frame environ model self name :
  ~ In name ["supplier"; "model"; "context_length"; "tokenizer_hub"; "llm_api_key"] ->
  LLMEndpointConfig.getfield name (LLMEndpointConfig.set_llm_model environ model self).1
  = LLMEndpointConfig.getfield name self.
Proof.
  intros Hname. simpl in Hname.
  destruct (LLMModelConfig.get_supplier_by_model_name model) as [supplier|] eqn:Hrev.
  - destruct (set_llm_model_known environ model self supplier Hrev) as (n & tok & _ & ->).
    rewrite set_api_key_run, orb_true_r.
    assert (Hcfg : forall v1 v2 v3 v4,
               LLMEndpointConfig.getfield name
                 (LLMEndpointConfig.store "tokenizer_hub" v1
                    (LLMEndpointConfig.store "context_length" v2
                       (LLMEndpointConfig.store "model" v3
                          (LLMEndpointConfig.store "supplier" v4 self))))
               = LLMEndpointConfig.getfield name self).
    { intros. rewrite !getfield_store_ne; [done|intros <-; tauto..]. }
    destruct (as_str _); cbn [fst]; [|apply Hcfg].
    rewrite getfield_store_ne; [apply Hcfg|intros <-; tauto].
  - unfold LLMEndpointConfig.set_llm_model. by rewrite Hrev.
Qed.

Lemma set_llm_model_frame_witness :
  LLMEndpointConfig.getfield "env_variable_name"
    (LLMEndpointConfig.set_llm_model ∅ "claude-3-haiku-20240307"
       (LLMEndpointConfig.populate LLMEndpointConfig.no_kwargs)).1
  = LLMEndpointConfig.getfield "env_variable_name"
      (LLMEndpointConfig.populate LLMEndpointConfig.no_kwargs).
Proof.
  apply set_llm_model_frame. simpl. intuition discriminate.
Defined.

(** ** More on [LLMEndpointConfig] construction *)

Lemma truthy_of_str_false o :
  truthy (of_str o) = false <-> o = None \/ o = Some "".
Proof.
  destruct o as [s|]; simpl.
  - destruct (String.eqb_spec s ""); simpl; split; intros H; try done.
    + right. by subst.
    + destruct H as [H|H]; [done|]. congruence.
  - split; auto.
Qed.

(** X7.  A non-empty key passed to the constructor is kept and the
    environment is not consulted: construction succeeds, with the same
    object, in every environment. *)
Theorem init_explicit_key environ data key :
  LLMEndpointConfig.kw_llm_api_key data = Some key ->
  key <> "" ->
  exists cfg,
    LLMEndpointConfig.init environ data = Ok cfg /\
    LLMEndpointConfig.llm_api_key cfg = PStr key /\
    forall environ', LLMEndpointConfig.init environ' data = Ok cfg.
Proof.
  intros Hkey Hne.
  assert (Htruthy : truthy (of_str (LLMEndpointConfig.kw_llm_api_key data)) = true).
  { rewrite Hkey. simpl. by destruct (String.eqb_spec key ""). }
  exists (LLMEndpointConfig.set_llm_model_config (LLMEndpointConfig.populate data)).1.
  split; [by rewrite init_run, Htruthy|]. split; [|intros; by rewrite init_run, Htruthy].
  rewrite (set_llm_model_config_run (LLMEndpointConfig.populate data) _ _ eq_refl eq_refl).
  destruct (LLMModelConfig.get_llm_model_config _ _); simpl; by rewrite Hkey.
Qed.

Lemma init_explicit_key_witness :
  exists cfg,
    LLMEndpointConfig.init ∅
      (LLMEndpointConfig.mk_kwargs (Some MISTRAL) (Some "mistral-large-latest") None None
         None None (Some "sk-passed") None None None None None) = Ok cfg /\
    LLMEndpointConfig.llm_api_key cfg = PStr "sk-passed" /\
    forall environ',
      LLMEndpointConfig.init environ'
        (LLMEndpointConfig.mk_kwargs (Some MISTRAL) (Some "mistral-large-latest") None None
           None None (Some "sk-passed") None None None None None) = Ok cfg.
Proof.
  apply (init_explicit_key ∅ _ "sk-passed"); [reflexivity|discriminate].
Defined.

(** X8.  Construction of an [LLMEndpointConfig] raises exactly when the
    key passed is [None] or empty and the variable named by
    [env_variable_name] is unset or empty; the exception is then the
    missing-key [ValueError] naming that variable, and never another
    one. *)
Theorem init_failure_condition environ data :
  let name := default LLMEndpointConfig.default_env_variable_name
                (LLMEndpointConfig.kw_env_variable_name data) in
  let missing (o : option string) := o = None \/ o = Some "" in
  match LLMEndpointConfig.init environ data with
  | Ok cfg =>
      ~ (missing (LLMEndpointConfig.kw_llm_api_key data) /\ missing (environ !! name))
  | Raise e =>
      e = ValueError (ApiKeyNotSet (PStr name)) /\
      missing (LLMEndpointConfig.kw_llm_api_key data) /\ missing (environ !! name)
  end.
Proof.
  intros name missing. subst missing. cbv beta. rewrite init_run. fold name.
  destruct (truthy (of_str (LLMEndpointConfig.kw_llm_api_key data))) eqn:Hk.
  - intros [Hm _]. apply truthy_of_str_false in Hm. congruence.
  - destruct (truthy (of_str (environ !! name))) eqn:He.
    + intros [_ Hm]. apply truthy_of_str_false in Hm. congruence.
    + by rewrite <- !truthy_of_str_false.
Qed.

(** X9.  When the registry knows the model under the supplier, the
    constructed object carries the registered context length and
    tokenizer: values passed for [context_length] and [tokenizer_hub] are
    overwritten. *)
Theorem init_registered_model_overrides environ data config cfg :
  LLMModelConfig.get_llm_model_config
    (default LLMEndpointConfig.default_supplier (LLMEndpointConfig.kw_supplier data))
    (default LLMEndpointConfig.default_model_name (LLMEndpointConfig.kw_model data))
  = Some config ->
  LLMEndpointConfig.init environ data = Ok cfg ->
  LLMEndpointConfig.context_length cfg = of_int (LLMConfig.context config) /\
  LLMEndpointConfig.tokenizer_hub cfg = of_str (LLMConfig.tokenizer_hub config).
Proof.
  intros Hcfg Hinit. rewrite init_run in Hinit.
  rewrite (set_llm_model_config_run (LLMEndpointConfig.populate data) _ _ eq_refl eq_refl),
    Hcfg in Hinit. cbn [fst] in Hinit.
  destruct (truthy (of_str (LLMEndpointConfig.kw_llm_api_key data))).
  - by injection Hinit as <-.
  - destruct (truthy (of_str (environ !! _))); [|discriminate]. by injection Hinit as <-.
Qed.

Lemma init_registered_model_overrides_witness :
  exists cfg,
    LLMEndpointConfig.init {[ "OPENAI_API_KEY" := "x" ]}
      (LLMEndpointConfig.mk_kwargs (Some OPENAI) (Some "gpt-4-0613") (Some 32768)
         (Some "my/tokenizer") None None None None None None None None) = Ok cfg /\
    LLMEndpointConfig.context_length cfg = PInt 8192 /\
    LLMEndpointConfig.tokenizer_hub cfg = PStr "Xenova/gpt-4".
Proof.
  eexists. split; [vm_compute; reflexivity|].
  apply (init_registered_model_overrides {[ "OPENAI_API_KEY" := "x" ]}
           (LLMEndpointConfig.mk_kwargs (Some OPENAI) (Some "gpt-4-0613") (Some 32768)
              (Some "my/tokenizer") None None None None None None None None)
           (LLMConfig.mk (Some 8192) (Some "Xenova/gpt-4")));
    vm_compute; reflexivity.
Defined.

(** X10.  Running the two validation steps of the constructor again on a
    constructed object changes nothing and returns, in any environment:
    model resolution stores the values already there, and the key check
    finds the key. *)
Theorem init_then_revalidate environ data cfg environ' :
  LLMEndpointConfig.init environ data = Ok cfg ->
  LLMEndpointConfig.set_llm_model_config cfg = (cfg, Ok tt) /\
  LLMEndpointConfig.set_api_key environ' false cfg = (cfg, Ok tt).
Proof.
  intros Hinit. rewrite init_run in Hinit.
  rewrite (set_llm_model_config_run (LLMEndpointConfig.populate data) _ _ eq_refl eq_refl)
    in Hinit. rewrite set_api_key_run, orb_false_r.
  destruct (truthy (of_str (LLMEndpointConfig.kw_llm_api_key data))) eqn:Hk.
  - injection Hinit as <-. split.
    + erewrite set_llm_model_config_run.
      2,3: by destruct (LLMModelConfig.get_llm_model_config _ _).
      by destruct (LLMModelConfig.get_llm_model_config _ _).
    + replace (LLMEndpointConfig.llm_api_key _)
        with (of_str (LLMEndpointConfig.kw_llm_api_key data))
        by (by destruct (LLMModelConfig.get_llm_model_config _ _)).
      by rewrite Hk.
  - destruct (truthy (of_str (environ !! _))) eqn:He; [|discriminate].
    injection Hinit as <-. split.
    + erewrite set_llm_model_config_run.
      2,3: by destruct (LLMModelConfig.get_llm_model_config _ _).
      by destruct (LLMModelConfig.get_llm_model_config _ _).
    + cbn [LLMEndpointConfig.llm_api_key LLMEndpointConfig.store]. simpl String.eqb.
      cbv iota. by rewrite He.
Qed.

Lemma init_then_revalidate_witness :
  exists cfg,
    LLMEndpointConfig.init {[ "OPENAI_API_KEY" := "x" ]} LLMEndpointConfig.no_kwargs = Ok cfg /\
    LLMEndpointConfig.set_llm_model_config cfg = (cfg, Ok tt) /\
    LLMEndpointConfig.set_api_key ∅ false cfg = (cfg, Ok tt).
Proof.
  eexists. split; [vm_compute; reflexivity|].
  apply (init_then_revalidate {[ "OPENAI_API_KEY" := "x" ]} LLMEndpointConfig.no_kwargs).
  vm_compute. reflexivity.
Defined.

(** X11.  An empty value of the key variable is treated differently by
    the two classes: [LLMEndpointConfig] takes it as no key and raises,
    [RerankerConfig] accepts it and is constructed with the empty key. *)
Theorem empty_key_variable environ :
  (forall data,
     LLMEndpointConfig.kw_llm_api_key data = None ->
     environ !! default LLMEndpointConfig.default_env_variable_name
                  (LLMEndpointConfig.kw_env_variable_name data) = Some "" ->
     LLMEndpointConfig.init environ data
     = Raise (ValueError
                (ApiKeyNotSet
                   (PStr (default LLMEndpointConfig.default_env_variable_name
                            (LLMEndpointConfig.kw_env_variable_name data)))))) /\
  (forall data s,
     RerankerConfig.kw_supplier data = Some s ->
     environ !! (upper (reranker_value s) +:+ "_API_KEY") = Some "" ->
     exists cfg, RerankerConfig.init environ data = Ok cfg /\
                 RerankerConfig.api_key cfg = Some "").
Proof.
  split.
  - intros data Hkey Henv. by rewrite init_run, Hkey, Henv.
  - intros data s Hs Henv. rewrite reranker_init_run, Hs, Henv. eauto.
Qed.

Lemma empty_key_variable_witness :
  LLMEndpointConfig.init {[ "OPENAI_API_KEY" := "" ]} LLMEndpointConfig.no_kwargs
  = Raise (ValueError (ApiKeyNotSet (PStr "OPENAI_API_KEY"))) /\
  exists cfg,
    RerankerConfig.init {[ "COHERE_API_KEY" := "" ]}
      (RerankerConfig.mk_kwargs (Some COHERE) None None None) = Ok cfg /\
    RerankerConfig.api_key cfg = Some "".
Proof.
  split.
  - apply (proj1 (empty_key_variable {[ "OPENAI_API_KEY" := "" ]})
             LLMEndpointConfig.no_kwargs); reflexivity.
  - apply (proj2 (empty_key_variable {[ "COHERE_API_KEY" := "" ]})
             (RerankerConfig.mk_kwargs (Some COHERE) None None None) COHERE);
      reflexivity.
Defined.

(** ** More on [RerankerConfig] *)

(** X12.  Without a supplier a [RerankerConfig] is always constructed,
    in every environment, exactly as populated: the model gets no
    default and a key passed in is kept. *)
Theorem reranker_without_supplier environ data :
  RerankerConfig.kw_supplier data = None ->
  RerankerConfig.init environ data
  = Ok (RerankerConfig.mk None (RerankerConfig.kw_model data)
          (default 5 (RerankerConfig.kw_top_n data)) (RerankerConfig.kw_api_key data)).
Proof.
  intros Hs. rewrite reranker_init_run, Hs. unfold RerankerConfig.populate. by rewrite Hs.
Qed.

Lemma reranker_without_supplier_witness :
  RerankerConfig.init {[ "COHERE_API_KEY" := "co" ]}
    (RerankerConfig.mk_kwargs None None (Some 3) (Some "passed"))
  = Ok (RerankerConfig.mk None None 3 (Some "passed")).
Proof.
  exact (reranker_without_supplier {[ "COHERE_API_KEY" := "co" ]}
           (RerankerConfig.mk_kwargs None None (Some 3) (Some "passed")) eq_refl).
Defined.

(** X13.  A constructed [RerankerConfig] has the supplier and [top_n] it
    was given (5 when none), the model it was given, or the default
    model of the supplier when none was given, and, with a supplier, the
    value of the supplier's variable as key. *)
Theorem reranker_constructed_fields environ data cfg :
  RerankerConfig.init environ data = Ok cfg ->
  RerankerConfig.supplier cfg = RerankerConfig.kw_supplier data /\
  RerankerConfig.top_n cfg = default 5 (RerankerConfig.kw_top_n data) /\
  RerankerConfig.model cfg =
    match RerankerConfig.kw_model data with
    | Some m => Some m
    | None => default_model <$> RerankerConfig.kw_supplier data
    end /\
  RerankerConfig.api_key cfg =
    match RerankerConfig.kw_supplier data with
    | Some s => environ !! (upper (reranker_value s) +:+ "_API_KEY")
    | None => RerankerConfig.kw_api_key data
    end.
Proof.
  rewrite reranker_init_run.
  destruct (RerankerConfig.kw_supplier data) as [s|] eqn:Hs.
  - destruct (environ !! _) as [key|]; [|discriminate]. intros [= <-]. simpl.
    by destruct (RerankerConfig.kw_model data).
  - intros [= <-]. unfold RerankerConfig.populate. simpl. rewrite Hs.
    by destruct (RerankerConfig.kw_model data).
Qed.

Lemma reranker_constructed_fields_witness :
  exists cfg,
    RerankerConfig.init {[ "JINA_API_KEY" := "jk" ]}
      (RerankerConfig.mk_kwargs (Some JINA) (Some "my-reranker") None None) = Ok cfg /\
    RerankerConfig.model cfg = Some "my-reranker".
Proof.
  eexists. split; [vm_compute; reflexivity|].
  apply (reranker_constructed_fields {[ "JINA_API_KEY" := "jk" ]}
           (RerankerConfig.mk_kwargs (Some JINA) (Some "my-reranker") None None)).
  vm_compute. reflexivity.
Defined.

(** X14.  [validate_model] run again on a constructed [RerankerConfig],
    in the environment it was constructed in, returns and leaves the
    object as it is. *)
Theorem reranker_validate_again environ data cfg :
  RerankerConfig.init environ data = Ok cfg ->
  RerankerConfig.validate_model environ cfg = (cfg, Ok tt).
Proof.
  rewrite reranker_init_run.
  destruct (RerankerConfig.kw_supplier data) as [s|] eqn:Hs.
  - destruct (environ !! _) as [key|] eqn:Henv; [|discriminate]. intros [= <-].
    unfold RerankerConfig.validate_model, RerankerConfig.supplier_set. run_method.
    cbn [RerankerConfig.model RerankerConfig.supplier RerankerConfig.with_api_key
         RerankerConfig.api_key RerankerConfig.top_n].
    replace (String.eqb (reranker_value s) "") with false by (by destruct s).
    cbv iota. rewrite Henv. reflexivity.
  - intros [= <-].
    unfold RerankerConfig.validate_model, RerankerConfig.supplier_set,
      RerankerConfig.populate. run_method.
    cbn [RerankerConfig.model RerankerConfig.supplier]. rewrite Hs.
    by destruct (RerankerConfig.kw_model data).
Qed.

Lemma reranker_validate_again_witness :
  exists cfg,
    RerankerConfig.init {[ "COHERE_API_KEY" := "co" ]}
      (RerankerConfig.mk_kwargs (Some COHERE) None None None) = Ok cfg /\
    RerankerConfig.validate_model {[ "COHERE_API_KEY" := "co" ]} cfg = (cfg, Ok tt).
Proof.
  eexists. split; [vm_compute; reflexivity|].
  apply (reranker_validate_again {[ "COHERE_API_KEY" := "co" ]}
           (RerankerConfig.mk_kwargs (Some COHERE) None None None)).
  vm_compute. reflexivity.
Defined.

(** ** Defining [RetrievalConfig] *)

(** X15.  The class statement of [RetrievalConfig] constructs a default
    [LLMEndpointConfig]: it raises the missing-key error naming
    [OPENAI_API_KEY] when that variable is unset or empty in the
    environment the module is loaded in; otherwise the defaults are a
    reranker config without supplier, model or key, and an endpoint
    config for OPENAI and ["gpt-3.5-turbo-0125"] with the registered
    context length and tokenizer and the key of the variable. *)
Theorem retrieval_config_class_defaults environ :
  match environ !! "OPENAI_API_KEY" with
  | Some key =>
      if String.eqb key "" then
        RetrievalConfig.class_defaults environ
        = Raise (ValueError (ApiKeyNotSet (PStr "OPENAI_API_KEY")))
      else
        RetrievalConfig.class_defaults environ
        = Ok (RerankerConfig.mk None None 5 None,
              {| LLMEndpointConfig.supplier := PSupplier OPENAI;
                 LLMEndpointConfig.model := PStr "gpt-3.5-turbo-0125";
                 LLMEndpointConfig.context_length := PInt 16385;
                 LLMEndpointConfig.tokenizer_hub := PStr "Xenova/gpt-3.5-turbo";
                 LLMEndpointConfig.llm_base_url := PNone;
                 LLMEndpointConfig.env_variable_name := PStr "OPENAI_API_KEY";
                 LLMEndpointConfig.llm_api_key := PStr key;
                 LLMEndpointConfig.max_input_tokens := PInt 2000;
                 LLMEndpointConfig.max_output_tokens := PInt 2000;
                 LLMEndpointConfig.temperature := PFloat 0x1.6666666666666p-1%float;
                 LLMEndpointConfig.streaming := PBool true;
                 LLMEndpointConfig.prompt := PNone |})
  | None =>
      RetrievalConfig.class_defaults environ
      = Raise (ValueError (ApiKeyNotSet (PStr "OPENAI_API_KEY")))
  end.
Proof.
  unfold RetrievalConfig.class_defaults.
  rewrite reranker_init_run, init_run. cbn [RerankerConfig.kw_supplier].
  change (default LLMEndpointConfig.default_env_variable_name
            (LLMEndpointConfig.kw_env_variable_name LLMEndpointConfig.no_kwargs))
    with "OPENAI_API_KEY".
  change (truthy (of_str (LLMEndpointConfig.kw_llm_api_key LLMEndpointConfig.no_kwargs)))
    with false. cbv iota.
  destruct (environ !! "OPENAI_API_KEY") as [key|]; [|reflexivity].
  change (truthy (of_str (Some key))) with (negb (String.eqb key "")).
  destruct (String.eqb key ""); reflexivity.
Qed.

(** ** More on [set_from_sqlmodel] *)

(** X16.  [set_from_sqlmodel] is not all-or-nothing: when the entries
    before the first one that fails the existence test are valid (source
    attribute present, target a declared field), the call raises the
    invalid-mapping error for that entry and leaves the object exactly as
    a successful call on the earlier entries alone leaves it. *)
Theorem set_from_sqlmodel_keeps_earlier_assignments
    base_hasattr base_setattr sqlmodel before model_field llm_field after self :
  Forall (fun e => is_Some (sqlmodel !! e.1) /\ In e.2 LLMEndpointConfig.model_fields)
    before ->
  sqlmodel !! model_field = None \/
  LLMEndpointConfig.hasattr base_hasattr self llm_field = false ->
  exists self',
    LLMEndpointConfig.set_from_sqlmodel base_hasattr base_setattr sqlmodel before self
    = (self', Ok tt) /\
    LLMEndpointConfig.set_from_sqlmodel base_hasattr base_setattr sqlmodel
      (before ++ (model_field, llm_field) :: after)%list self
    = (self', Raise (AttributeError (InvalidMapping model_field llm_field))).
Proof.
  intros Hvalid Hbad. exists (assign_all sqlmodel before self).
  assert (Hvalid' : Forall (fun e => is_Some (sqlmodel !! e.1) /\
                                     LLMEndpointConfig.is_field e.2 = true) before).
  { eapply Forall_impl; [exact Hvalid|]. intros e [Hsrc Htgt].
    split; [done|]. by apply is_field_elem. }
  split.
  - by apply set_from_sqlmodel_valid.
  - by apply set_from_sqlmodel_first_invalid.
Qed.

Lemma set_from_sqlmodel_keeps_earlier_assignments_witness :
  exists self',
    LLMEndpointConfig.set_from_sqlmodel (fun _ => false) (fun _ _ => mret tt)
      {[ "max_input" := PInt 4000 ]} [("max_input", "max_input_tokens")]
      (LLMEndpointConfig.populate LLMEndpointConfig.no_kwargs)
    = (self', Ok tt) /\
    LLMEndpointConfig.set_from_sqlmodel (fun _ => false) (fun _ _ => mret tt)
      {[ "max_input" := PInt 4000 ]}
      ([("max_input", "max_input_tokens")] ++ [("max_output", "max_output_tokens")])%list
      (LLMEndpointConfig.populate LLMEndpointConfig.no_kwargs)
    = (self', Raise (AttributeError (InvalidMapping "max_output" "max_output_tokens"))).
Proof.
  apply (set_from_sqlmodel_keeps_earlier_assignments (fun _ => false) (fun _ _ => mret tt)
           {[ "max_input" := PInt 4000 ]} [("max_input", "max_input_tokens")]
           "max_output" "max_output_tokens" []).
  - constructor; [|constructor]. split; [by eexists|simpl; tauto].
  - left. reflexivity.
Defined.

(** X17.  Mapping a string onto [env_variable_name] redirects the key
    lookup: [set_api_key(force_reset=True)] after it takes the key from
    the variable of that name, and the mapping itself leaves the key the
    object holds untouched. *)
Theorem set_from_sqlmodel_then_set_api_key
    base_hasattr base_setattr environ sqlmodel model_field name self :
  sqlmodel !! model_field = Some (PStr name) ->
  let mapped :=
    LLMEndpointConfig.set_from_sqlmodel base_hasattr base_setattr sqlmodel
      [(model_field, "env_variable_name")] self in
  mapped.2 = Ok tt /\
  LLMEndpointConfig.llm_api_key mapped.1 = LLMEndpointConfig.llm_api_key self /\
  LLMEndpointConfig.llm_api_key
    (LLMEndpointConfig.set_api_key environ true mapped.1).1 = of_str (environ !! name) /\
  (LLMEndpointConfig.set_from_sqlmodel base_hasattr base_setattr sqlmodel
     [(model_field, "env_variable_name")];;
   LLMEndpointConfig.set_api_key environ true) self
  = LLMEndpointConfig.set_api_key environ true mapped.1.
Proof.
  intros Hsrc mapped. subst mapped.
  rewrite run_bind.
  rewrite (set_from_sqlmodel_valid base_hasattr base_setattr sqlmodel
             [(model_field, "env_variable_name")] self).
  2:{ constructor; [|constructor]. split; [by eexists|reflexivity]. }
  rewrite assign_all_cons, Hsrc. change (assign_all sqlmodel [] ?x) with x.
  cbn [fst snd]. split; [reflexivity|]. split; [reflexivity|]. split; [|reflexivity].
  rewrite set_api_key_run, orb_true_r. reflexivity.
Qed.

Lemma set_from_sqlmodel_then_set_api_key_witness :
  LLMEndpointConfig.llm_api_key
    (LLMEndpointConfig.set_api_key {[ "ANTHROPIC_API_KEY" := "sk-ant" ]} true
       (LLMEndpointConfig.set_from_sqlmodel (fun _ => false) (fun _ _ => mret tt)
          {[ "env_variable_name" := PStr "ANTHROPIC_API_KEY" ]}
          [("env_variable_name", "env_variable_name")]
          (LLMEndpointConfig.populate LLMEndpointConfig.no_kwargs)).1).1
  = PStr "sk-ant".
Proof.
  exact (proj1 (proj2 (proj2
           (set_from_sqlmodel_then_set_api_key (fun _ => false) (fun _ _ => mret tt)
              {[ "ANTHROPIC_API_KEY" := "sk-ant" ]}
              {[ "env_variable_name" := PStr "ANTHROPIC_API_KEY" ]}
              "env_variable_name" "ANTHROPIC_API_KEY"
              (LLMEndpointConfig.populate LLMEndpointConfig.no_kwargs) eq_refl)))).
Defined.
